(** * etl-gardener, package [cloud/bq]: query construction and partition operations

    A shallow embedding of [cloud/bq/ops.go] (both revisions of the file that
    the repository carries: the older [Queryer] revision with the [dedup] and
    [cleanup] templates, and the newer [OpsHandler] revision with [DedupQuery]
    and [DeleteTmp]), of the parts of Go's [time] and [html/template]
    packages that the code calls, and of the table-name parser and the sanity
    check that the tests of [cloud/bq] exercise. *)

From Stdlib Require Import String Ascii List ZArith Lia Bool Permutation OrderedTypeEx.
Import ListNotations.
Open Scope string_scope.
Open Scope Z_scope.

(** ** Characters that a Rocq string literal cannot hold directly *)

Definition LF : string := String (ascii_of_nat 10) EmptyString.
Definition TAB : string := String (ascii_of_nat 9) EmptyString.
Definition DQ : string := String (ascii_of_nat 34) EmptyString.

(** ** Go's [time] package: what [Time.Format] does for the layouts in use *)

Module GoTime.

(** A [time.Time] is observed by the code only through [Format]; the
    calendar date it presents (in its own location) is all that the two
    layouts in use read.  [time.Time] guarantees [1 <= Month <= 12] and
    [1 <= Day <= 31]. *)
Record Time := mkTime { Year : Z; Month : Z; Day : Z }.

Definition digitChar (d : Z) : ascii := ascii_of_nat (48 + Z.to_nat d).

(** The loop [for u >= 10 { ... }] of [appendInt], assembling the decimal
    digits from the least significant one.  The buffer of the Go code has 20
    bytes, enough for any 64-bit value. *)
Fixpoint decimal (fuel : nat) (u : Z) (acc : string) : string :=
  match fuel with
  | O => acc
  | S fuel' =>
      if 10 <=? u
      then decimal fuel' (u / 10) (String (digitChar (u mod 10)) acc)
      else String (digitChar u) acc
  end.

Fixpoint zeros (n : nat) : string :=
  match n with
  | O => EmptyString
  | S n' => String "0" (zeros n')
  end.

(** [appendInt(b, x, width)]: sign, zero padding up to [width], digits. *)
Definition appendInt (x : Z) (width : nat) : string :=
  let u := Z.abs x in
  let ds := decimal 20 u EmptyString in
  (if x <? 0 then "-" else "") ++ zeros (width - String.length ds) ++ ds.

(** The two layouts that [ops.go] passes to [Format]. *)
Inductive Layout :=
| Layout_2006_01_02   (* "2006-01-02" *)
| Layout_20060102.    (* "20060102" *)

Definition Format (t : Time) (l : Layout) : string :=
  match l with
  | Layout_2006_01_02 =>
      appendInt (Year t) 4 ++ "-" ++ appendInt (Month t) 2 ++ "-" ++ appendInt (Day t) 2
  | Layout_20060102 =>
      appendInt (Year t) 4 ++ appendInt (Month t) 2 ++ appendInt (Day t) 2
  end.

End GoTime.

(** ** Go's [html/template]: text-context escaping and template execution *)

Module HtmlTemplate.

(** [htmlReplacementTable]: the replacement of one byte in the text context.
    Every byte that is replaced is ASCII, so the replacement is byte-wise
    also on multi-byte UTF-8 input. *)
Definition htmlReplacement (c : ascii) : string :=
  match nat_of_ascii c with
  | 0%nat => String (ascii_of_nat 239) (String (ascii_of_nat 191) (String (ascii_of_nat 189) EmptyString))
  | 34%nat => "&#34;"
  | 38%nat => "&amp;"
  | 39%nat => "&#39;"
  | 43%nat => "&#43;"
  | 60%nat => "&lt;"
  | 62%nat => "&gt;"
  | _ => String c EmptyString
  end.

(** [htmlEscaper] on a plain string value. *)
Fixpoint htmlEscaper (s : string) : string :=
  match s with
  | EmptyString => EmptyString
  | String c s' => htmlReplacement c ++ htmlEscaper s'
  end.

(** A Go [map[string]string], by its entries.  The order of the list stands
    for the order in which the Go runtime happens to enumerate the map,
    which is unspecified; a Go map holds each key once. *)
Definition GoMap := list (string * string).

(** [sortKeys] of [text/template]: a [range] over a map with string keys
    visits the entries by increasing key, in Go's byte-wise string order. *)
Fixpoint insertByKey (e : string * string) (l : GoMap) : GoMap :=
  match l with
  | [] => [e]
  | e' :: l' =>
      if String.leb (fst e) (fst e') then e :: e' :: l' else e' :: insertByKey e l'
  end.

Definition sortKeys (m : GoMap) : GoMap := fold_right insertByKey [] m.

(** The bytes written to the output buffer, one piece after the other. *)
Definition cat (pieces : list string) : string := fold_right append "" pieces.

(** The nodes inside [{{range $k, $v := ...}} ... {{end}}]. *)
Inductive RangeNode :=
| RText (s : string)
| RKey                 (* {{$k}} *)
| RValue.              (* {{$v}} *)

Section Execute.

(** The value the template is executed on ([params] in [makeQuery]). *)
Variable P : Type.

(** The parse tree of a template: literal text, an action that prints a
    string-valued pipeline of the value, a [range] over a map field. *)
Inductive Node :=
| Text (s : string)
| Action (pipeline : P -> string)
| Range (field : P -> GoMap) (body : list RangeNode).

Definition Template := list Node.

Definition execRangeNode (kv : string * string) (n : RangeNode) : string :=
  match n with
  | RText s => s
  | RKey => htmlEscaper (fst kv)
  | RValue => htmlEscaper (snd kv)
  end.

Definition execBody (body : list RangeNode) (kv : string * string) : string :=
  cat (map (execRangeNode kv) body).

Definition execNode (params : P) (n : Node) : string :=
  match n with
  | Text s => s
  | Action pipeline => htmlEscaper (pipeline params)
  | Range field body =>
      cat (map (execBody body) (sortKeys (field params)))
  end.

(** [t.Execute(out, params)], the text written to [out].  Every field the
    templates of [ops.go] name exists in [queryer], so execution does not
    fail on them. *)
Definition Execute (t : Template) (params : P) : string :=
  cat (map (execNode params) t).

End Execute.

Arguments Text {P} s.
Arguments Action {P} pipeline.
Arguments Range {P} field body.

End HtmlTemplate.

(** ** The job tracker's [Job] (package [tracker]), as [ops.go] reads it *)

Module tracker.

Record Job := NewJob {
  Bucket : string;
  Experiment : string;
  Datatype : string;
  Date : GoTime.Time
}.

End tracker.

(** ** Errors the package returns

    The first four are in [ops.go]; the last three are the names the
    specification gives to the failures of the parser and the sanity check. *)

Inductive error :=
| ErrDatatypeNotSupported            (* errors.New("Datatype not supported") *)
| ErrNilQuery                        (* dataset.ErrNilQuery *)
| ErrNilBqClient                     (* dataset.ErrNilBqClient *)
| ErrDryRunNotImplemented            (* errors.New("dryrun not implemented") *)
| ErrService (msg : string)          (* whatever the BigQuery service reports *)
| InvalidPartitionName               (* section 7: malformed table or partition name *)
| ErrMetadataUnavailable             (* section 7: a metadata fetch failed *)
| SanityCheckFailed.                 (* section 7: promotion judged unsafe *)

(** ** The BigQuery client, by the requests the package sends to it *)

Module bigquery.

Record TableRef := mkTable { ProjectID : string; DatasetID : string; TableID : string }.

Inductive TableWriteDisposition := WriteAppend | WriteTruncate | WriteEmpty.

Record CopyConfig := mkCopy {
  Srcs : list TableRef;
  Dst : TableRef;
  WriteDisposition : TableWriteDisposition
}.

Record QueryConfig := mkQueryConfig { Q : string; DryRun : bool }.

(** A handle on a job the service has started. *)
Record Job := mkJob { ID : string }.

(** One request sent to the service. *)
Inductive Call :=
| CallNewClient (projectID : string)
| CallMetadata (t : TableRef)
| CallCopierRun (c : CopyConfig)
| CallTableDelete (t : TableRef)
| CallQueryRun (c : QueryConfig)
| CallDetail (t : TableRef).

(** The service's answers.  The package's functions are embedded as
    functions of the answers, returning the requests they sent, in order,
    next to their Go results. *)
Record Service := mkService {
  NewClient : string -> option error;
  CopierRun : CopyConfig -> option Job * option error;
  TableDelete : TableRef -> option error;
  QueryRun : QueryConfig -> option Job * option error
}.

(** A [bqiface.Client]: the project it is bound to, and whether its
    [Query] method hands out a query object for a query text (the adapter
    of the real client always does; a nil result is what [Dedup] guards
    against). *)
Record Client := mkClient {
  clientProject : string;
  QueryIsNil : string -> bool
}.

(** Requests that change data in the warehouse. *)
Definition mutates (c : Call) : bool :=
  match c with
  | CallCopierRun _ | CallTableDelete _ => true
  | CallQueryRun qc => negb (DryRun qc)
  | CallNewClient _ | CallMetadata _ | CallDetail _ => false
  end.

End bigquery.

(** The wrapper [xJob] that lets a [*bigquery.Job] stand as a [bqiface.Job]. *)
Record xJob := mk_xJob { j : option bigquery.Job }.

(** A [bqiface.Job]: the job of a query run through the client's adapter, or
    the [xJob] wrapper around the job of a copy. *)
Inductive bqiface_Job :=
| QueryJob (job : bigquery.Job)
| CopyJob (x : xJob).

(** The requests an operation sent, and its Go results [(job, err)]. *)
Definition JobResult : Type := list bigquery.Call * (option bqiface_Job * option error).

(** ** [ops.go], the [Queryer] revision (templates [dedup] and [cleanup])

    [CopyToRaw] of this revision is the one of the [OpsHandler] revision
    below, line for line. *)

Module Rev1.
Import HtmlTemplate.

Record queryer := mkQueryer {
  client : option bigquery.Client;
  Project : string;
  Date : string;                 (* Name of the partition field *)
  Job : tracker.Job;
  (* map key is the single field name, value is fully qualified name *)
  Partition : GoMap;
  Order : string
}.

Definition NewQuerierWithClient (client : option bigquery.Client) (job : tracker.Job)
    (project : string) : option queryer * option error :=
  if String.eqb (tracker.Datatype job) "annotation" then
    (Some (mkQueryer client project "date" job [("id", "id")] ""), None)
  else if String.eqb (tracker.Datatype job) "ndt7" then
    (Some (mkQueryer client project "date" job [("id", "id")] ""), None)
  else
    (None, Some ErrDatatypeNotSupported).

Definition tmpTable : Template queryer :=
  [ Text "`"; Action Project;
    Text ".tmp_"; Action (fun params => tracker.Experiment (Job params));
    Text "."; Action (fun params => tracker.Datatype (Job params));
    Text "`" ].

Definition dedupTemplate : Template queryer :=
  ([ Text (LF ++
          "#standardSQL" ++ LF ++
          "# Delete all duplicate rows based on key and prefered priority ordering." ++ LF ++
          "# This is resource intensive for tcpinfo - 20 slot hours for 12M rows with 250M snapshots," ++ LF ++
          "# roughly proportional to the memory footprint of the table partition." ++ LF ++
          "# The query is very cheap if there are no duplicates." ++ LF ++
          "DELETE" ++ LF ++
          "FROM ") ]
  ++ tmpTable
  ++ [ Text (" AS target" ++ LF ++
          "WHERE ");
    Action Date;
    Text (" = " ++ DQ);
    Action (fun params => GoTime.Format (tracker.Date (Job params)) GoTime.Layout_2006_01_02);
    Text (DQ ++ LF ++
          "# This identifies all rows that don't match rows to preserve." ++ LF ++
          "AND NOT EXISTS (" ++ LF ++
          "  # This creates list of rows to preserve, based on key and priority." ++ LF ++
          "  WITH keep AS (" ++ LF ++
          "  SELECT * EXCEPT(row_number) FROM (" ++ LF ++
          "    SELECT" ++ LF ++
          "      ");
    Range Partition [RValue; RText ", "];
    Text (LF ++
          TAB ++ "  parser.Time," ++ LF ++
          "      ROW_NUMBER() OVER (" ++ LF ++
          "        PARTITION BY ");
    Range Partition [RValue; RText ", "];
    Text ("date" ++ LF ++
          "        ORDER BY ");
    Action Order;
    Text (" parser.Time DESC" ++ LF ++
          "      ) row_number" ++ LF ++
          "      FROM (" ++ LF ++
          "        SELECT * FROM ") ]
  ++ tmpTable
  ++ [ Text (LF ++
          "        WHERE ");
    Action Date;
    Text (" = " ++ DQ);
    Action (fun params => GoTime.Format (tracker.Date (Job params)) GoTime.Layout_2006_01_02);
    Text (DQ ++ LF ++
          "      )" ++ LF ++
          "    )" ++ LF ++
          "    WHERE row_number = 1" ++ LF ++
          "  )" ++ LF ++
          "  SELECT * FROM keep" ++ LF ++
          "  # This matches against the keep table based on keys.  Sufficient select keys must be" ++ LF ++
          "  # used to distinguish the preferred row from the others." ++ LF ++
          "  WHERE" ++ LF ++
          "    ");
    Range Partition [RText "target."; RValue; RText " = keep."; RKey; RText " AND "];
    Text (LF ++
          "    target.parser.Time = keep.Time" ++ LF ++
          ")") ])%list.

Definition cleanupTemplate : Template queryer :=
  ([ Text (LF ++
          "#standardSQL" ++ LF ++
          "# Delete all rows in a partition." ++ LF ++
          "DELETE" ++ LF ++
          "FROM ") ]
  ++ tmpTable
  ++ [ Text (LF ++
          "WHERE ");
    Action Date;
    Text (" = " ++ DQ);
    Action (fun params => GoTime.Format (tracker.Date (Job params)) GoTime.Layout_2006_01_02);
    Text (DQ ++ LF) ])%list.

(** The map [queryTemplates], by its lookup. *)
Definition queryTemplates (key : string) : option (Template queryer) :=
  if String.eqb key "dedup" then Some dedupTemplate
  else if String.eqb key "cleanup" then Some cleanupTemplate
  else None.

Definition makeQuery (params : queryer) (t : Template queryer) : string :=
  Execute queryer t params.

(** [QueryFor] returns the appropriate query in string form. *)
Definition QueryFor (params : queryer) (key : string) : string :=
  match queryTemplates key with
  | None => ""
  | Some t => makeQuery params t
  end.

(** [Run] executes a query constructed from a template. *)
Definition Run (svc : bigquery.Service) (params : queryer) (key : string)
    (dryRun : bool) : JobResult :=
  let qs := QueryFor params key in
  if Nat.eqb (String.length qs) 0 then ([], (None, Some ErrNilQuery))
  else match client params with
  | None => ([], (None, Some ErrNilBqClient))
  | Some c =>
      if bigquery.QueryIsNil c qs then ([], (None, Some ErrNilQuery))
      else
        let qc := bigquery.mkQueryConfig qs dryRun in
        let '(job, err) := bigquery.QueryRun svc qc in
        ([bigquery.CallQueryRun qc], (option_map QueryJob job, err))
  end.

Definition Dedup (svc : bigquery.Service) (params : queryer) (dryRun : bool) : JobResult :=
  Run svc params "dedup" dryRun.

Definition Cleanup (svc : bigquery.Service) (params : queryer) (dryRun : bool) : JobResult :=
  Run svc params "cleanup" dryRun.

End Rev1.

(** ** [ops.go], the [OpsHandler] revision ([DedupQuery], [CopyToRaw], [DeleteTmp]) *)

Module Rev2.
Import HtmlTemplate.

Record queryer := mkQueryer {
  client : option bigquery.Client;
  Project : string;
  Date : string;                 (* Name of the partition field *)
  Job : tracker.Job;
  (* map key is the single field name, value is fully qualified name *)
  PartitionKeys : GoMap;
  OrderKeys : string
}.

Definition NewQuerierWithClient (client : option bigquery.Client) (job : tracker.Job)
    (project : string) : option queryer * option error :=
  if String.eqb (tracker.Datatype job) "annotation" then
    (Some (mkQueryer client project "date" job [("id", "id")] ""), None)
  else if String.eqb (tracker.Datatype job) "ndt5" then
    (Some (mkQueryer client project "log_time" job [("test_id", "test_id")] ""), None)
  else if String.eqb (tracker.Datatype job) "ndt7" then
    (Some (mkQueryer client project "date" job [("id", "id")] ""), None)
  else
    (None, Some ErrDatatypeNotSupported).

Definition tmpTable : Template queryer :=
  [ Text "`"; Action Project;
    Text ".tmp_"; Action (fun params => tracker.Experiment (Job params));
    Text "."; Action (fun params => tracker.Datatype (Job params));
    Text "`" ].

Definition dedupTemplate : Template queryer :=
  ([ Text (LF ++
          "#standardSQL" ++ LF ++
          "# Delete all duplicate rows based on key and prefered priority ordering." ++ LF ++
          "# This is resource intensive for tcpinfo - 20 slot hours for 12M rows with 250M snapshots," ++ LF ++
          "# roughly proportional to the memory footprint of the table partition." ++ LF ++
          "# The query is very cheap if there are no duplicates." ++ LF ++
          "DELETE" ++ LF ++
          "FROM ") ]
  ++ tmpTable
  ++ [ Text (" AS target" ++ LF ++
          "WHERE ");
    Action Date;
    Text (" = " ++ DQ);
    Action (fun params => GoTime.Format (tracker.Date (Job params)) GoTime.Layout_2006_01_02);
    Text (DQ ++ LF ++
          "# This identifies all rows that don't match rows to preserve." ++ LF ++
          "AND NOT EXISTS (" ++ LF ++
          "  # This creates list of rows to preserve, based on key and priority." ++ LF ++
          "  WITH keep AS (" ++ LF ++
          "  SELECT * EXCEPT(row_number) FROM (" ++ LF ++
          "    SELECT" ++ LF ++
          "      ");
    Range PartitionKeys [RValue; RText ", "];
    Text (LF ++
          TAB ++ "  parser.Time," ++ LF ++
          "      ROW_NUMBER() OVER (" ++ LF ++
          "        PARTITION BY ");
    Range PartitionKeys [RValue; RText ", "];
    Text ("date" ++ LF ++
          "        ORDER BY ");
    Action OrderKeys;
    Text (" parser.Time DESC" ++ LF ++
          "      ) row_number" ++ LF ++
          "      FROM (" ++ LF ++
          "        SELECT * FROM ") ]
  ++ tmpTable
  ++ [ Text (LF ++
          "        WHERE ");
    Action Date;
    Text (" = " ++ DQ);
    Action (fun params => GoTime.Format (tracker.Date (Job params)) GoTime.Layout_2006_01_02);
    Text (DQ ++ LF ++
          "      )" ++ LF ++
          "    )" ++ LF ++
          "    WHERE row_number = 1" ++ LF ++
          "  )" ++ LF ++
          "  SELECT * FROM keep" ++ LF ++
          "  # This matches against the keep table based on keys.  Sufficient select keys must be" ++ LF ++
          "  # used to distinguish the preferred row from the others." ++ LF ++
          "  WHERE" ++ LF ++
          "    ");
    Range PartitionKeys [RText "target."; RValue; RText " = keep."; RKey; RText " AND "];
    Text (LF ++
          "    target.parser.Time = keep.Time" ++ LF ++
          ")") ])%list.

(** [makeQuery] creates a query from a template.  An error of [Execute]
    would only be logged; the text written so far is returned. *)
Definition makeQuery (params : queryer) (t : Template queryer) : string :=
  Execute queryer t params.

(** [DedupQuery] returns the appropriate query in string form. *)
Definition DedupQuery (params : queryer) : string :=
  makeQuery params dedupTemplate.

(** [Dedup] executes the dedup query.  In dry-run mode the query
    configuration is replaced by one that holds the text and the flag. *)
Definition Dedup (svc : bigquery.Service) (params : queryer) (dryRun : bool) : JobResult :=
  let qs := DedupQuery params in
  if Nat.eqb (String.length qs) 0 then ([], (None, Some ErrNilQuery))
  else match client params with
  | None => ([], (None, Some ErrNilBqClient))
  | Some c =>
      if bigquery.QueryIsNil c qs then ([], (None, Some ErrNilQuery))
      else
        let qc := bigquery.mkQueryConfig qs dryRun in
        let '(job, err) := bigquery.QueryRun svc qc in
        ([bigquery.CallQueryRun qc], (option_map QueryJob job, err))
  end.

(** [CopyToRaw] copies the tmp_ job partition to the raw_ job partition.
    The metadata of the two tables is fetched for the log only. *)
Definition CopyToRaw (svc : bigquery.Service) (params : queryer) (dryRun : bool) : JobResult :=
  if dryRun then ([], (None, Some ErrDryRunNotImplemented))
  else match client params with
  | None => ([], (None, Some ErrNilBqClient))
  | Some c =>
      (* params.client.Dataset("tmp_" + params.Job.Experiment).ProjectID() *)
      let projectID := bigquery.clientProject c in
      match bigquery.NewClient svc projectID with
      | Some err => ([bigquery.CallNewClient projectID], (None, Some err))
      | None =>
          let src :=
            bigquery.mkTable projectID
              ("tmp_" ++ tracker.Experiment (Job params))
              (tracker.Datatype (Job params) ++ "$"
                 ++ GoTime.Format (tracker.Date (Job params)) GoTime.Layout_20060102) in
          let dest :=
            bigquery.mkTable projectID
              ("raw_" ++ tracker.Experiment (Job params))
              (tracker.Datatype (Job params) ++ "$"
                 ++ GoTime.Format (tracker.Date (Job params)) GoTime.Layout_20060102) in
          (* copier := dest.CopierFrom(src), then its WriteDisposition is set *)
          let copier := bigquery.mkCopy [src] dest bigquery.WriteTruncate in
          let '(j, err) := bigquery.CopierRun svc copier in
          ([bigquery.CallNewClient projectID;
            bigquery.CallMetadata src;
            bigquery.CallMetadata dest;
            bigquery.CallCopierRun copier],
           (Some (CopyJob (mk_xJob j)), err))
      end
  end.

(** [DeleteTmp] deletes the tmp table partition. *)
Definition DeleteTmp (svc : bigquery.Service) (params : queryer)
    : list bigquery.Call * option error :=
  match client params with
  | None => ([], Some ErrNilBqClient)
  | Some c =>
      let tmp := bigquery.mkTable (bigquery.clientProject c)
                   ("tmp_" ++ tracker.Experiment (Job params))
                   (tracker.Datatype (Job params) ++ "$"
                      ++ GoTime.Format (tracker.Date (Job params)) GoTime.Layout_20060102) in
      ([bigquery.CallTableDelete tmp], bigquery.TableDelete svc tmp)
  end.

End Rev2.

(** ** The table-name parser and the sanity check of [cloud/bq]

    [getTableParts] and [SanityCheckAndCopy] are called by
    [sanity_test.go]; the file that defines them is not among the sources. *)

Module sanity.

Record tableNameParts := mkParts {
  prefix : string;
  isPartitioned : bool;
  yyyymmdd : string
}.

Definition isDigit (c : ascii) : bool :=
  let n := nat_of_ascii c in (Nat.leb 48 n && Nat.leb n 57)%bool.

Fixpoint allDigits (s : string) : bool :=
  match s with
  | EmptyString => true
  | String c s' => (isDigit c && allDigits s')%bool
  end.

Fixpoint countChar (sep : ascii) (s : string) : nat :=
  match s with
  | EmptyString => 0%nat
  | String c s' => ((if Ascii.eqb c sep then 1 else 0) + countChar sep s')%nat
  end.

(** The text before and after the last occurrence of [sep]. *)
Fixpoint splitAtLast (sep : ascii) (s : string) : option (string * string) :=
  match s with
  | EmptyString => None
  | String c s' =>
      match splitAtLast sep s' with
      | Some (before, after) => Some (String c before, after)
      | None => if Ascii.eqb c sep then Some (EmptyString, s') else None
      end
  end.

(** A trailing [_digits] group: the name ends in an underscore followed by
    one or more digits. *)
Definition trailingDigitsGroup (s : string) : option (string * string) :=
  match splitAtLast "_" s with
  | Some (before, after) =>
      if (negb (Nat.eqb (String.length after) 0) && allDigits after)%bool
      then Some (before, after) else None
  | None => None
  end.

Fixpoint digitsValue (s : string) (acc : Z) : Z :=
  match s with
  | EmptyString => acc
  | String c s' => digitsValue s' (10 * acc + (Z.of_nat (nat_of_ascii c) - 48))
  end.

Definition isLeapYear (y : Z) : bool :=
  ((y mod 4 =? 0) && (negb (y mod 100 =? 0) || (y mod 400 =? 0)))%bool.

Definition daysIn (y m : Z) : Z :=
  if (m =? 4) || (m =? 6) || (m =? 9) || (m =? 11) then 30
  else if m =? 2 then (if isLeapYear y then 29 else 28)
  else 31.

(** Eight digits that form a calendar date: month 1-12, day valid for the
    month, leap years included. *)
Definition validDate (d : string) : bool :=
  (Nat.eqb (String.length d) 8 && allDigits d &&
   (let y := digitsValue (substring 0 4 d) 0 in
    let m := digitsValue (substring 4 2 d) 0 in
    let dd := digitsValue (substring 6 2 d) 0 in
    (1 <=? m) && (m <=? 12) && (1 <=? dd) && (dd <=? daysIn y m)))%bool.

(** Modelled from the spec: [getTableParts], the partition-name parser of
    section 4.1, whose Go definition is missing from the sources.  It fails
    with [InvalidPartitionName] when the name holds more than one partition
    separator (a [$], or a trailing [_digits] group), when a declared
    partition suffix is not exactly 8 digits, or when the 8 digits are not
    a calendar date; [isPartitioned] is true only for the [$YYYYMMDD] form,
    and the [_YYYYMMDD] form reports its date with [isPartitioned] false.
    A name without any separator carries no date. *)
Definition getTableParts (tableName : string) : tableNameParts + error :=
  let separators :=
    (countChar "$" tableName
     + (match trailingDigitsGroup tableName with Some _ => 1 | None => 0 end))%nat in
  if Nat.ltb 1 separators then inr InvalidPartitionName
  else match splitAtLast "$" tableName with
  | Some (before, after) =>
      if validDate after then inl (mkParts before true after)
      else inr InvalidPartitionName
  | None =>
      match trailingDigitsGroup tableName with
      | Some (before, after) =>
          if validDate after then inl (mkParts before false after)
          else inr InvalidPartitionName
      | None => inl (mkParts tableName false EmptyString)
      end
  end.

(** Modelled from the spec: the table metadata of section 3. *)
Record TableMetadata := mkMeta {
  NumRows : Z;
  NumBytes : Z;
  CreationTime : Z;
  LastModifiedTime : Z;
  IsPartitioned : bool
}.

(** Modelled from the spec: the table detail of section 3 (distinct source
    files, distinct records), with the field names [sanity_test.go] and the
    integration test read. *)
Record Detail := mkDetail { TaskFileCount : Z; TestCount : Z }.

(** What a fetch from the metadata provider of section 6 yields. *)
Inductive Fetched (A : Type) :=
| Found (a : A)
| NotFound
| FetchFailed (e : error).
Arguments Found {A} a.
Arguments NotFound {A}.
Arguments FetchFailed {A} e.

(** Modelled from the spec: the collaborators of section 6 that the sanity
    check consumes. *)
Record Provider := mkProvider {
  Metadata : bigquery.TableRef -> Fetched TableMetadata;
  GetTableDetail : bigquery.TableRef -> Fetched Detail;
  (* whether the datatype of a table is compared on details as well *)
  FinerGrained : bigquery.TableRef -> bool;
  Copy : bigquery.CopyConfig -> option error
}.

Inductive Outcome :=
| Promoted
| NothingToPromote
| Failed (e : error).

(** The Go [error] an outcome is reported as: nil unless it failed. *)
Definition outcomeError (o : Outcome) : option error :=
  match o with
  | Failed e => Some e
  | Promoted | NothingToPromote => None
  end.

Definition isInvalidName (r : tableNameParts + error) : bool :=
  match r with inl _ => false | inr _ => true end.

(** Step 3 of section 4.4 on the counts: safe when the source does not fall
    behind the destination. *)
Definition detailsSafe (src dest : Detail) : bool :=
  ((TaskFileCount dest <=? TaskFileCount src) && (TestCount dest <=? TestCount src))%bool.

(** The row count a fetch reports: an absent table has none, a failed
    fetch reports nothing. *)
Definition rowsOf (f : Fetched TableMetadata) : option Z :=
  match f with
  | Found m => Some (NumRows m)
  | NotFound => Some 0
  | FetchFailed _ => None
  end.

(** Modelled from the spec: [SanityCheckAndCopy], the algorithm of section
    4.4, whose Go definition is missing from the sources.  (1) Both names are
    parsed, a malformed one fails at once.  (2) The metadata of both tables is
    fetched, and the check fails with [ErrMetadataUnavailable] if either
    fetch errors; a "not found" answer is no error but an empty partition,
    and an empty source is the state [NothingToPromote].  (3) Promotion is
    safe when the destination is empty, or the source has at least the
    destination's rows and, for finer-grained datatypes, at least its
    distinct files and records.  (4) When safe, the copy runs with the
    overwrite disposition and its outcome is returned; when unsafe,
    [SanityCheckFailed], with nothing changed. *)
Definition SanityCheckAndCopy (pv : Provider) (src dest : bigquery.TableRef)
    : list bigquery.Call * Outcome :=
  if (isInvalidName (getTableParts (bigquery.TableID src))
      || isInvalidName (getTableParts (bigquery.TableID dest)))%bool
  then ([], Failed InvalidPartitionName)
  else
    let fetched := [bigquery.CallMetadata src; bigquery.CallMetadata dest] in
    let copy (calls : list bigquery.Call) :=
      let cfg := bigquery.mkCopy [src] dest bigquery.WriteTruncate in
      ((calls ++ [bigquery.CallCopierRun cfg])%list,
       match Copy pv cfg with Some e => Failed e | None => Promoted end) in
    match rowsOf (Metadata pv src), rowsOf (Metadata pv dest) with
    | Some srcRows, Some destRows =>
        if srcRows =? 0 then (fetched, NothingToPromote)
        else if destRows =? 0 then copy fetched
        else if srcRows <? destRows then (fetched, Failed SanityCheckFailed)
        else if FinerGrained pv src then
          let detailed :=
            (fetched ++ [bigquery.CallDetail src; bigquery.CallDetail dest])%list in
          match GetTableDetail pv src, GetTableDetail pv dest with
          | Found sd, Found dd =>
              if detailsSafe sd dd then copy detailed
              else (detailed, Failed SanityCheckFailed)
          | _, _ => (detailed, Failed ErrMetadataUnavailable)
          end
        else copy fetched
    | _, _ => (fetched, Failed ErrMetadataUnavailable)
    end.

End sanity.

(** ** Reading a rendered query back *)

Module SQLText.

Fixpoint drop (n : nat) (s : string) : string :=
  match n, s with
  | O, _ => s
  | S n', String _ s' => drop n' s'
  | S _, EmptyString => EmptyString
  end.

(** The text that follows the first occurrence of [marker]. *)
Fixpoint after (marker s : string) : option string :=
  if String.prefix marker s then Some (drop (String.length marker) s)
  else match s with
       | EmptyString => None
       | String _ s' => after marker s'
       end.

(** The text up to the end of the line. *)
Fixpoint firstLine (s : string) : string :=
  match s with
  | EmptyString => EmptyString
  | String c s' =>
      if Ascii.eqb c (ascii_of_nat 10) then EmptyString else String c (firstLine s')
  end.

(** The items of a list written with [", "] between them. *)
Fixpoint items (s : string) : list string :=
  match s with
  | EmptyString => [EmptyString]
  | String c s' =>
      match c, s' with
      | ","%char, String " "%char rest => EmptyString :: items rest
      | _, _ =>
          match items s' with
          | item :: more => String c item :: more
          | [] => [String c EmptyString]
          end
      end
  end.

(** The columns of the first [PARTITION BY] clause of a query. *)
Definition windowPartitionColumns (query : string) : option (list string) :=
  option_map (fun rest => items (firstLine rest)) (after "PARTITION BY " query).

(** The expression of the first [ORDER BY] clause of a query. *)
Definition windowOrder (query : string) : option string :=
  option_map firstLine (after "ORDER BY " query).

End SQLText.

(** ** Plain text, and the pieces a [range] writes *)

Section Pieces.
Import HtmlTemplate.

(** The bytes [htmlReplacementTable] replaces. *)
Definition special (c : ascii) : bool :=
  let n := nat_of_ascii c in
  (Nat.eqb n 0 || Nat.eqb n 34 || Nat.eqb n 38 || Nat.eqb n 39
   || Nat.eqb n 43 || Nat.eqb n 60 || Nat.eqb n 62)%bool.

Fixpoint plain (s : string) : bool :=
  match s with
  | EmptyString => true
  | String c s' => (negb (special c) && plain s')%bool
  end.

(** What [{{range $k, $v := .PartitionKeys}}{{$v}}, {{end}}] writes. *)
Definition keyColumns (keys : GoMap) : string :=
  cat (map (fun kv => htmlEscaper (snd kv) ++ ", ") (sortKeys keys)).

(** What the [range] of the final [WHERE] writes. *)
Definition keyMatches (keys : GoMap) : string :=
  cat (map (fun kv => "target." ++ htmlEscaper (snd kv) ++ " = keep."
                        ++ htmlEscaper (fst kv) ++ " AND ")
           (sortKeys keys)).

End Pieces.

(** ** The datatypes with a policy, and values to run the code on *)

Definition supportedDatatypes : list string := ["annotation"; "ndt5"; "ndt7"].

(** The job of [TestTemplate] in [dedup_test.go], for a given datatype. *)
Definition testJob (datatype : string) : tracker.Job :=
  tracker.NewJob "bucket" "exp" datatype (GoTime.mkTime 2019 3 4).

Definition testClient : bigquery.Client :=
  bigquery.mkClient "mlab-sandbox" (fun _ => false).

(** A service that accepts every request. *)
Definition testService : bigquery.Service :=
  bigquery.mkService
    (fun _ => None)
    (fun _ => (Some (bigquery.mkJob "copy-1"), None))
    (fun _ => None)
    (fun _ => (Some (bigquery.mkJob "query-1"), None)).

(** The builder [NewQuerierWithClient] returns for [testJob "ndt5"]. *)
Definition ndt5Queryer : Rev2.queryer :=
  Rev2.mkQueryer (Some testClient) "mlab-sandbox" "log_time" (testJob "ndt5")
    [("test_id", "test_id")] "".

(** The builder of the [Queryer] revision for [testJob "annotation"]. *)
Definition annotationQueryer : Rev1.queryer :=
  Rev1.mkQueryer (Some testClient) "mlab-sandbox" "date" (testJob "annotation")
    [("id", "id")] "".

(** A [queryer] value whose policy has no partition key. *)
Definition noKeyQueryer : Rev2.queryer :=
  Rev2.mkQueryer (Some testClient) "mlab-sandbox" "date" (testJob "annotation") [] "".

(** A policy with two partition keys, the map enumerated in two orders (the
    keys of the [tcpinfo] policy that [ops.go] keeps in a comment). *)
Definition twoKeyQueryer (keys : HtmlTemplate.GoMap) : Rev2.queryer :=
  Rev2.mkQueryer None "mlab-sandbox" "date" (testJob "tcpinfo") keys "".

Definition twoKeys : HtmlTemplate.GoMap :=
  [("uuid", "uuid"); ("Timestamp", "FinalSnapshot.Timestamp")].

Definition twoKeysOtherOrder : HtmlTemplate.GoMap :=
  [("Timestamp", "FinalSnapshot.Timestamp"); ("uuid", "uuid")].

(** The tables of [TestSanityCheckAndCopyTesting], and a provider on which
    the source does not exist. *)
Definition testSrc : bigquery.TableRef :=
  bigquery.mkTable "mlab-staging" "batch" "traceroute_20130524".

Definition testDest : bigquery.TableRef :=
  bigquery.mkTable "mlab-staging" "batch" "traceroute$20130524".

Definition emptySourceProvider : sanity.Provider :=
  sanity.mkProvider
    (fun _ => sanity.NotFound)
    (fun _ => sanity.NotFound)
    (fun _ => false)
    (fun _ => None).

(** A provider on which the source does not exist and the fetch of the
    destination's metadata fails, and a destination name with a date of
    seven digits. *)
Definition failingDestProvider : sanity.Provider :=
  sanity.mkProvider
    (fun t => if String.eqb (bigquery.TableID t) "traceroute$20130524"
              then sanity.FetchFailed (ErrService "backend unavailable")
              else sanity.NotFound)
    (fun _ => sanity.NotFound)
    (fun _ => false)
    (fun _ => None).

Definition malformedDest : bigquery.TableRef :=
  bigquery.mkTable "mlab-staging" "batch" "traceroute$2013052".

(** ** Further functions of [ops.go] *)

Module Rev2More.

(** [bqiface.AdaptClient] on a client made for [project]: the adapter's
    [Query] always hands out a query object. *)
Definition AdaptClient (project : string) : bigquery.Client :=
  bigquery.mkClient project (fun _ => false).

(** [NewQuerier] of the [OpsHandler] revision: a client for [project] is
    made first, and adapted; [NewQuerierWithClient] follows. *)
Definition NewQuerier (svc : bigquery.Service) (job : tracker.Job) (project : string)
    : list bigquery.Call * (option Rev2.queryer * option error) :=
  match bigquery.NewClient svc project with
  | Some err => ([bigquery.CallNewClient project], (None, Some err))
  | None =>
      ([bigquery.CallNewClient project],
       Rev2.NewQuerierWithClient (Some (AdaptClient project)) job project)
  end.

End Rev2More.

(** The revision of [ops.go] between the two above (the copy of the file
    that follows [dedup_test.go]).  It is the [OpsHandler] revision except
    for [CopyToRaw], which works on the [queryer] of that revision. *)
Module RevMid.

(** [CopyToRaw]: the copier from [src] to [dest] is given a fresh
    configuration, and run; the [dryRun] argument is not read. *)
Definition CopyToRaw (svc : bigquery.Service) (params : Rev2.queryer) (dryRun : bool)
    : list bigquery.Call * (option bigquery.Job * option error) :=
  match Rev2.client params with
  | None => ([], (None, Some ErrNilBqClient))
  | Some c =>
      let src :=
        bigquery.mkTable (bigquery.clientProject c)
          ("tmp_" ++ tracker.Experiment (Rev2.Job params))
          (tracker.Datatype (Rev2.Job params)) in
      let dest :=
        bigquery.mkTable (bigquery.clientProject c)
          ("raw_" ++ tracker.Experiment (Rev2.Job params))
          (tracker.Datatype (Rev2.Job params)) in
      (* config.WriteDisposition, config.Dst, config.Srcs = append(config.Srcs, src) *)
      let config := bigquery.mkCopy [src] dest bigquery.WriteTruncate in
      ([bigquery.CallCopierRun config], bigquery.CopierRun svc config)
  end.

End RevMid.

(** ** Dates with a four-digit year, and text made of digits *)

Definition fourDigitDate (t : GoTime.Time) : Prop :=
  0 <= GoTime.Year t <= 9999 /\ 1 <= GoTime.Month t <= 12 /\ 1 <= GoTime.Day t <= 31.

Fixpoint digitsOnly (s : string) : bool :=
  match s with
  | EmptyString => true
  | String c s' =>
      (Nat.leb 48 (nat_of_ascii c) && Nat.leb (nat_of_ascii c) 57 && digitsOnly s')%bool
  end.

(** A service on which no client can be made, and one on which the copy
    fails. *)
Definition noClientService : bigquery.Service :=
  bigquery.mkService
    (fun _ => Some (ErrService "no credentials"))
    (fun _ => (Some (bigquery.mkJob "copy-1"), None))
    (fun _ => None)
    (fun _ => (Some (bigquery.mkJob "query-1"), None)).

Definition failingCopyService : bigquery.Service :=
  bigquery.mkService
    (fun _ => None)
    (fun _ => (None, Some (ErrService "quota exceeded")))
    (fun _ => None)
    (fun _ => (Some (bigquery.mkJob "query-1"), None)).

(** The ndt5 builder for the day after the test job's. *)
Definition ndt5QueryerNextDay : Rev2.queryer :=
  Rev2.mkQueryer (Some testClient) "mlab-sandbox" "log_time"
    (tracker.NewJob "bucket" "exp" "ndt5" (GoTime.mkTime 2019 3 5))
    [("test_id", "test_id")] "".

(** * Properties *)

(** ** Strings and the order of map keys *)

Lemma append_assoc (a b c : string) : (a ++ b) ++ c = a ++ (b ++ c).
Proof.
  induction a as [|ch a IH]; simpl; [reflexivity | now rewrite IH].
Qed.

Lemma append_nil_r (a : string) : a ++ "" = a.
Proof.
  induction a as [|ch a IH]; simpl; [reflexivity | now rewrite IH].
Qed.

Lemma leb_trans (a b c : string) :
  String.leb a b = true -> String.leb b c = true -> String.leb a c = true.
Proof.
  unfold String.leb.
  destruct (String.compare a b) eqn:Hab; try discriminate; intros _;
    destruct (String.compare b c) eqn:Hbc; try discriminate; intros _.
  - apply String.compare_eq_iff in Hab; subst. now rewrite Hbc.
  - apply String.compare_eq_iff in Hab; subst. now rewrite Hbc.
  - apply String.compare_eq_iff in Hbc; subst. now rewrite Hab.
  - apply String_as_OT.cmp_lt in Hab. apply String_as_OT.cmp_lt in Hbc.
    assert (Hac : String_as_OT.cmp a c = Lt)
      by (apply String_as_OT.cmp_lt; eapply String_as_OT.lt_trans; eauto).
    unfold String_as_OT.cmp in Hac. now rewrite Hac.
Qed.

Lemma leb_false_flip (a b : string) :
  String.leb a b = false -> String.leb b a = true.
Proof.
  intros H. destruct (String.leb_total a b) as [E|E]; congruence.
Qed.

Section InsertByKey.
Import HtmlTemplate.

(** Inserting two entries with different keys gives the same list in
    either order. *)
Lemma insertByKey_comm (a b : string * string) (l : GoMap) :
  fst a <> fst b ->
  insertByKey a (insertByKey b l) = insertByKey b (insertByKey a l).
Proof.
  intros Hne. induction l as [|e l IH]; simpl.
  - destruct (String.leb (fst a) (fst b)) eqn:Hab;
      destruct (String.leb (fst b) (fst a)) eqn:Hba; try reflexivity.
    + exfalso. apply Hne. now apply String.leb_antisym.
    + apply leb_false_flip in Hab. congruence.
  - destruct (String.leb (fst b) (fst e)) eqn:Hbe;
      destruct (String.leb (fst a) (fst e)) eqn:Hae; simpl;
      rewrite ?Hbe, ?Hae.
    + destruct (String.leb (fst a) (fst b)) eqn:Hab;
        destruct (String.leb (fst b) (fst a)) eqn:Hba; simpl;
        rewrite ?Hbe, ?Hae; try reflexivity.
      * exfalso. apply Hne. now apply String.leb_antisym.
      * apply leb_false_flip in Hab. congruence.
    + assert (Hab : String.leb (fst a) (fst b) = false).
      { destruct (String.leb (fst a) (fst b)) eqn:Hab; [|reflexivity].
        rewrite (leb_trans _ _ _ Hab Hbe) in Hae. discriminate. }
      rewrite Hab. simpl. rewrite ?Hae. reflexivity.
    + assert (Hba : String.leb (fst b) (fst a) = false).
      { destruct (String.leb (fst b) (fst a)) eqn:Hba; [|reflexivity].
        rewrite (leb_trans _ _ _ Hba Hae) in Hbe. discriminate. }
      rewrite Hba. simpl. rewrite ?Hbe. reflexivity.
    + now rewrite IH.
Qed.

(** [sortKeys] does not depend on the order in which the runtime
    enumerates the map. *)
Lemma sortKeys_Permutation (m m' : GoMap) :
  Permutation m m' -> NoDup (map fst m) -> sortKeys m = sortKeys m'.
Proof.
  induction 1 as [|x l l' Hp IH|x y l|l l' l'' Hp1 IH1 Hp2 IH2]; intros Hnd.
  - reflexivity.
  - simpl. inversion Hnd; subst. now rewrite IH.
  - simpl. apply insertByKey_comm.
    inversion Hnd as [|? ? Hin _]; subst. simpl in Hin.
    intros E. apply Hin. now left.
  - rewrite IH1 by assumption. apply IH2.
    eapply Permutation_NoDup; [|exact Hnd]. now apply Permutation_map.
Qed.

End InsertByKey.

(** ** Escaping leaves plain text alone *)

Section Escaping.
Import HtmlTemplate.

Lemma htmlReplacement_plain (c : ascii) :
  special c = false -> htmlReplacement c = String c EmptyString.
Proof.
  destruct c as [[] [] [] [] [] [] [] []]; intros H;
    first [reflexivity | discriminate H].
Qed.

Lemma htmlEscaper_plain (s : string) : plain s = true -> htmlEscaper s = s.
Proof.
  induction s as [|c s IH]; simpl; [reflexivity|].
  intros H. apply andb_prop in H as [Hc Hs].
  apply negb_true_iff in Hc.
  rewrite (htmlReplacement_plain _ Hc), (IH Hs). reflexivity.
Qed.

Lemma plain_app (a b : string) : plain (a ++ b) = (plain a && plain b)%bool.
Proof.
  induction a as [|c a IH]; simpl; [reflexivity|].
  rewrite IH. now rewrite andb_assoc.
Qed.

Lemma special_digitChar (d : Z) : 0 <= d < 10 -> special (GoTime.digitChar d) = false.
Proof.
  intros H.
  assert (E : d = 0 \/ d = 1 \/ d = 2 \/ d = 3 \/ d = 4 \/ d = 5 \/ d = 6
              \/ d = 7 \/ d = 8 \/ d = 9) by lia.
  repeat (destruct E as [E|E]; [subst; reflexivity|]). subst; reflexivity.
Qed.

Lemma plain_decimal (fuel : nat) : forall (u : Z) (acc : string),
  0 <= u -> plain acc = true -> plain (GoTime.decimal fuel u acc) = true.
Proof.
  induction fuel as [|fuel IH]; intros u acc Hu Hacc; cbn [GoTime.decimal];
    [assumption|].
  destruct (10 <=? u) eqn:E.
  - apply IH.
    + apply Z.div_pos; lia.
    + cbn [plain]. rewrite special_digitChar by (apply Z.mod_pos_bound; lia).
      exact Hacc.
  - apply Z.leb_gt in E. cbn [plain].
    rewrite special_digitChar by lia. exact Hacc.
Qed.

Lemma plain_zeros (n : nat) : plain (GoTime.zeros n) = true.
Proof.
  induction n as [|n IH]; simpl; [reflexivity | exact IH].
Qed.

Lemma plain_appendInt (x : Z) (width : nat) : plain (GoTime.appendInt x width) = true.
Proof.
  unfold GoTime.appendInt. rewrite !plain_app, plain_zeros, plain_decimal.
  - destruct (x <? 0); reflexivity.
  - apply Z.abs_nonneg.
  - reflexivity.
Qed.

(** A formatted date passes through the escaper unchanged. *)
Lemma htmlEscaper_Format (t : GoTime.Time) (l : GoTime.Layout) :
  htmlEscaper (GoTime.Format t l) = GoTime.Format t l.
Proof.
  apply htmlEscaper_plain.
  destruct l; unfold GoTime.Format; rewrite !plain_app, !plain_appendInt; reflexivity.
Qed.

End Escaping.

(** ** The text a template renders *)

Section Rendering.
Import HtmlTemplate.

Lemma execBody_columns (l : GoMap) :
  cat (map (execBody [RValue; RText ", "]) l)
  = cat (map (fun kv => htmlEscaper (snd kv) ++ ", ") l).
Proof.
  induction l as [|kv l IH]; [reflexivity|].
  cbn [map cat fold_right]. fold (cat (map (execBody [RValue; RText ", "]) l)).
  fold (cat (map (fun kv => htmlEscaper (snd kv) ++ ", ") l)).
  rewrite IH. reflexivity.
Qed.

Lemma execBody_matches (l : GoMap) :
  cat (map (execBody [RText "target."; RValue; RText " = keep."; RKey; RText " AND "]) l)
  = cat (map (fun kv => "target." ++ htmlEscaper (snd kv) ++ " = keep."
                          ++ htmlEscaper (fst kv) ++ " AND ") l).
Proof.
  induction l as [|kv l IH]; [reflexivity|].
  cbn [map cat fold_right].
  fold (cat (map (execBody [RText "target."; RValue; RText " = keep."; RKey; RText " AND "]) l)).
  fold (cat (map (fun kv => "target." ++ htmlEscaper (snd kv) ++ " = keep."
                          ++ htmlEscaper (fst kv) ++ " AND ") l)).
  rewrite IH. unfold execBody. cbn [map cat fold_right execRangeNode].
  rewrite !append_assoc. reflexivity.
Qed.

(** The text of the dedup query of the [OpsHandler] revision, for any
    [queryer] value. *)
Lemma Rev2_DedupQuery_text (q : Rev2.queryer) :
  Rev2.DedupQuery q =
    LF ++
    "#standardSQL" ++ LF ++
    "# Delete all duplicate rows based on key and prefered priority ordering." ++ LF ++
    "# This is resource intensive for tcpinfo - 20 slot hours for 12M rows with 250M snapshots," ++ LF ++
    "# roughly proportional to the memory footprint of the table partition." ++ LF ++
    "# The query is very cheap if there are no duplicates." ++ LF ++
    "DELETE" ++ LF ++
    "FROM `" ++ htmlEscaper (Rev2.Project q) ++ ".tmp_" ++ htmlEscaper (tracker.Experiment (Rev2.Job q)) ++ "." ++ htmlEscaper (tracker.Datatype (Rev2.Job q)) ++ "` AS target" ++ LF ++
    "WHERE " ++ htmlEscaper (Rev2.Date q) ++ " = " ++ DQ ++ GoTime.Format (tracker.Date (Rev2.Job q)) GoTime.Layout_2006_01_02 ++ DQ ++ LF ++
    "# This identifies all rows that don't match rows to preserve." ++ LF ++
    "AND NOT EXISTS (" ++ LF ++
    "  # This creates list of rows to preserve, based on key and priority." ++ LF ++
    "  WITH keep AS (" ++ LF ++
    "  SELECT * EXCEPT(row_number) FROM (" ++ LF ++
    "    SELECT" ++ LF ++
    "      " ++ keyColumns (Rev2.PartitionKeys q) ++ LF ++
    TAB ++ "  parser.Time," ++ LF ++
    "      ROW_NUMBER() OVER (" ++ LF ++
    "        PARTITION BY " ++ keyColumns (Rev2.PartitionKeys q) ++ "date" ++ LF ++
    "        ORDER BY " ++ htmlEscaper (Rev2.OrderKeys q) ++ " parser.Time DESC" ++ LF ++
    "      ) row_number" ++ LF ++
    "      FROM (" ++ LF ++
    "        SELECT * FROM " ++ "`" ++ htmlEscaper (Rev2.Project q) ++ ".tmp_" ++ htmlEscaper (tracker.Experiment (Rev2.Job q)) ++ "." ++ htmlEscaper (tracker.Datatype (Rev2.Job q)) ++ "`" ++ LF ++
    "        WHERE " ++ htmlEscaper (Rev2.Date q) ++ " = " ++ DQ ++ GoTime.Format (tracker.Date (Rev2.Job q)) GoTime.Layout_2006_01_02 ++ DQ ++ LF ++
    "      )" ++ LF ++
    "    )" ++ LF ++
    "    WHERE row_number = 1" ++ LF ++
    "  )" ++ LF ++
    "  SELECT * FROM keep" ++ LF ++
    "  # This matches against the keep table based on keys.  Sufficient select keys must be" ++ LF ++
    "  # used to distinguish the preferred row from the others." ++ LF ++
    "  WHERE" ++ LF ++
    "    " ++ keyMatches (Rev2.PartitionKeys q) ++ LF ++
    "    target.parser.Time = keep.Time" ++ LF ++
    ")".
Proof.
  unfold Rev2.DedupQuery, Rev2.makeQuery, Execute, Rev2.dedupTemplate, Rev2.tmpTable.
  cbn [app map execNode cat fold_right].
  rewrite execBody_columns, execBody_matches, !htmlEscaper_Format.
  fold (keyColumns (Rev2.PartitionKeys q)). fold (keyMatches (Rev2.PartitionKeys q)).
  unfold LF, TAB, DQ. rewrite !append_assoc. rewrite ?append_nil_r. reflexivity.
Qed.

(** The same for the [dedup] template of the [Queryer] revision. *)
Lemma Rev1_dedup_text (q : Rev1.queryer) :
  Rev1.QueryFor q "dedup" =
    LF ++
    "#standardSQL" ++ LF ++
    "# Delete all duplicate rows based on key and prefered priority ordering." ++ LF ++
    "# This is resource intensive for tcpinfo - 20 slot hours for 12M rows with 250M snapshots," ++ LF ++
    "# roughly proportional to the memory footprint of the table partition." ++ LF ++
    "# The query is very cheap if there are no duplicates." ++ LF ++
    "DELETE" ++ LF ++
    "FROM `" ++ htmlEscaper (Rev1.Project q) ++ ".tmp_" ++ htmlEscaper (tracker.Experiment (Rev1.Job q)) ++ "." ++ htmlEscaper (tracker.Datatype (Rev1.Job q)) ++ "` AS target" ++ LF ++
    "WHERE " ++ htmlEscaper (Rev1.Date q) ++ " = " ++ DQ ++ GoTime.Format (tracker.Date (Rev1.Job q)) GoTime.Layout_2006_01_02 ++ DQ ++ LF ++
    "# This identifies all rows that don't match rows to preserve." ++ LF ++
    "AND NOT EXISTS (" ++ LF ++
    "  # This creates list of rows to preserve, based on key and priority." ++ LF ++
    "  WITH keep AS (" ++ LF ++
    "  SELECT * EXCEPT(row_number) FROM (" ++ LF ++
    "    SELECT" ++ LF ++
    "      " ++ keyColumns (Rev1.Partition q) ++ LF ++
    TAB ++ "  parser.Time," ++ LF ++
    "      ROW_NUMBER() OVER (" ++ LF ++
    "        PARTITION BY " ++ keyColumns (Rev1.Partition q) ++ "date" ++ LF ++
    "        ORDER BY " ++ htmlEscaper (Rev1.Order q) ++ " parser.Time DESC" ++ LF ++
    "      ) row_number" ++ LF ++
    "      FROM (" ++ LF ++
    "        SELECT * FROM " ++ "`" ++ htmlEscaper (Rev1.Project q) ++ ".tmp_" ++ htmlEscaper (tracker.Experiment (Rev1.Job q)) ++ "." ++ htmlEscaper (tracker.Datatype (Rev1.Job q)) ++ "`" ++ LF ++
    "        WHERE " ++ htmlEscaper (Rev1.Date q) ++ " = " ++ DQ ++ GoTime.Format (tracker.Date (Rev1.Job q)) GoTime.Layout_2006_01_02 ++ DQ ++ LF ++
    "      )" ++ LF ++
    "    )" ++ LF ++
    "    WHERE row_number = 1" ++ LF ++
    "  )" ++ LF ++
    "  SELECT * FROM keep" ++ LF ++
    "  # This matches against the keep table based on keys.  Sufficient select keys must be" ++ LF ++
    "  # used to distinguish the preferred row from the others." ++ LF ++
    "  WHERE" ++ LF ++
    "    " ++ keyMatches (Rev1.Partition q) ++ LF ++
    "    target.parser.Time = keep.Time" ++ LF ++
    ")".
Proof.
  unfold Rev1.QueryFor, Rev1.queryTemplates. cbn [String.eqb Ascii.eqb Bool.eqb].
  unfold Rev1.makeQuery, Execute, Rev1.dedupTemplate, Rev1.tmpTable.
  cbn [app map execNode cat fold_right].
  rewrite execBody_columns, execBody_matches, !htmlEscaper_Format.
  fold (keyColumns (Rev1.Partition q)). fold (keyMatches (Rev1.Partition q)).
  unfold LF, TAB, DQ. rewrite !append_assoc. rewrite ?append_nil_r. reflexivity.
Qed.

(** The text of the cleanup query of the [Queryer] revision. *)
Lemma Rev1_cleanup_text (q : Rev1.queryer) :
  Rev1.QueryFor q "cleanup" =
    LF ++
    "#standardSQL" ++ LF ++
    "# Delete all rows in a partition." ++ LF ++
    "DELETE" ++ LF ++
    "FROM `" ++ htmlEscaper (Rev1.Project q) ++ ".tmp_" ++ htmlEscaper (tracker.Experiment (Rev1.Job q)) ++ "." ++ htmlEscaper (tracker.Datatype (Rev1.Job q)) ++ "`" ++ LF ++
    "WHERE " ++ htmlEscaper (Rev1.Date q) ++ " = " ++ DQ ++ GoTime.Format (tracker.Date (Rev1.Job q)) GoTime.Layout_2006_01_02 ++ DQ ++ LF.
Proof.
  unfold Rev1.QueryFor, Rev1.queryTemplates. cbn [String.eqb Ascii.eqb Bool.eqb].
  unfold Rev1.makeQuery, Execute, Rev1.cleanupTemplate, Rev1.tmpTable.
  cbn [app map execNode cat fold_right].
  rewrite !htmlEscaper_Format.
  unfold LF, TAB, DQ. rewrite !append_assoc. rewrite ?append_nil_r. reflexivity.
Qed.

End Rendering.

(** ** The queries of the test job *)

(** The dedup query of the ndt5 builder for the job of 2019-03-04. *)
Example DedupQuery_ndt5 :
  Rev2.DedupQuery ndt5Queryer =
    LF ++
    "#standardSQL" ++ LF ++
    "# Delete all duplicate rows based on key and prefered priority ordering." ++ LF ++
    "# This is resource intensive for tcpinfo - 20 slot hours for 12M rows with 250M snapshots," ++ LF ++
    "# roughly proportional to the memory footprint of the table partition." ++ LF ++
    "# The query is very cheap if there are no duplicates." ++ LF ++
    "DELETE" ++ LF ++
    "FROM `mlab-sandbox.tmp_exp.ndt5` AS target" ++ LF ++
    "WHERE log_time = " ++ DQ ++ "2019-03-04" ++ DQ ++ LF ++
    "# This identifies all rows that don't match rows to preserve." ++ LF ++
    "AND NOT EXISTS (" ++ LF ++
    "  # This creates list of rows to preserve, based on key and priority." ++ LF ++
    "  WITH keep AS (" ++ LF ++
    "  SELECT * EXCEPT(row_number) FROM (" ++ LF ++
    "    SELECT" ++ LF ++
    "      test_id, " ++ LF ++
    TAB ++ "  parser.Time," ++ LF ++
    "      ROW_NUMBER() OVER (" ++ LF ++
    "        PARTITION BY test_id, date" ++ LF ++
    "        ORDER BY  parser.Time DESC" ++ LF ++
    "      ) row_number" ++ LF ++
    "      FROM (" ++ LF ++
    "        SELECT * FROM `mlab-sandbox.tmp_exp.ndt5`" ++ LF ++
    "        WHERE log_time = " ++ DQ ++ "2019-03-04" ++ DQ ++ LF ++
    "      )" ++ LF ++
    "    )" ++ LF ++
    "    WHERE row_number = 1" ++ LF ++
    "  )" ++ LF ++
    "  SELECT * FROM keep" ++ LF ++
    "  # This matches against the keep table based on keys.  Sufficient select keys must be" ++ LF ++
    "  # used to distinguish the preferred row from the others." ++ LF ++
    "  WHERE" ++ LF ++
    "    target.test_id = keep.test_id AND " ++ LF ++
    "    target.parser.Time = keep.Time" ++ LF ++
    ")".
Proof.
  vm_compute. reflexivity.
Qed.

(** The cleanup query of the annotation builder for the same date. *)
Example cleanup_annotation :
  Rev1.QueryFor annotationQueryer "cleanup" =
    LF ++
    "#standardSQL" ++ LF ++
    "# Delete all rows in a partition." ++ LF ++
    "DELETE" ++ LF ++
    "FROM `mlab-sandbox.tmp_exp.annotation`" ++ LF ++
    "WHERE date = " ++ DQ ++ "2019-03-04" ++ DQ ++ LF.
Proof.
  vm_compute. reflexivity.
Qed.

(** The two layouts on the test date, and the sign and width of a year
    outside 0..9999. *)
Example Format_examples :
  GoTime.Format (GoTime.mkTime 2019 3 4) GoTime.Layout_2006_01_02 = "2019-03-04"
  /\ GoTime.Format (GoTime.mkTime 2019 3 4) GoTime.Layout_20060102 = "20190304"
  /\ GoTime.Format (GoTime.mkTime 12345 11 30) GoTime.Layout_2006_01_02 = "12345-11-30"
  /\ GoTime.Format (GoTime.mkTime (-5) 1 2) GoTime.Layout_20060102 = "-00050102".
Proof.
  repeat split; vm_compute; reflexivity.
Qed.

(** The escaper on the bytes it replaces, and on a table name. *)
Example htmlEscaper_examples :
  HtmlTemplate.htmlEscaper ("a+b<c>&" ++ DQ ++ "'") = "a&#43;b&lt;c&gt;&amp;&#34;&#39;"
  /\ HtmlTemplate.htmlEscaper "mlab-sandbox.tmp_ndt.ndt5" = "mlab-sandbox.tmp_ndt.ndt5".
Proof.
  split; vm_compute; reflexivity.
Qed.

(** With two keys, the [range] visits them by increasing key, upper case
    before lower case, whichever way the map is enumerated. *)
Example sortKeys_two_keys :
  HtmlTemplate.sortKeys twoKeys = [("Timestamp", "FinalSnapshot.Timestamp"); ("uuid", "uuid")]
  /\ HtmlTemplate.sortKeys twoKeysOtherOrder = HtmlTemplate.sortKeys twoKeys
  /\ SQLText.windowPartitionColumns (Rev2.DedupQuery (twoKeyQueryer twoKeys))
     = Some ["FinalSnapshot.Timestamp"; "uuid"; "date"].
Proof.
  repeat split; vm_compute; reflexivity.
Qed.

(** ** The policy table *)

(** C3.  For a datatype outside annotation, ndt5 and ndt7,
    [NewQuerierWithClient] returns a nil builder and
    [ErrDatatypeNotSupported]: there is no [queryer] to render a query from. *)
Theorem unsupported_datatype_rejected
    (client : option bigquery.Client) (job : tracker.Job) (project : string) :
  ~ In (tracker.Datatype job) supportedDatatypes ->
  Rev2.NewQuerierWithClient client job project = (None, Some ErrDatatypeNotSupported).
Proof.
  intros Hout. unfold Rev2.NewQuerierWithClient, supportedDatatypes in *.
  destruct (String.eqb_spec (tracker.Datatype job) "annotation") as [E|_];
    [exfalso; apply Hout; rewrite E; simpl; tauto|].
  destruct (String.eqb_spec (tracker.Datatype job) "ndt5") as [E|_];
    [exfalso; apply Hout; rewrite E; simpl; tauto|].
  destruct (String.eqb_spec (tracker.Datatype job) "ndt7") as [E|_];
    [exfalso; apply Hout; rewrite E; simpl; tauto|].
  reflexivity.
Qed.

Lemma unsupported_datatype_rejected_witness :
  ~ In (tracker.Datatype (testJob "tcpinfo")) supportedDatatypes
  /\ Rev2.NewQuerierWithClient (Some testClient) (testJob "tcpinfo") "mlab-sandbox"
     = (None, Some ErrDatatypeNotSupported).
Proof.
  assert (H : ~ In (tracker.Datatype (testJob "tcpinfo")) supportedDatatypes).
  { simpl. intros [E|[E|[E|[]]]]; discriminate E. }
  split; [exact H | apply (unsupported_datatype_rejected _ (testJob "tcpinfo") _ H)].
Defined.

(** C5.  The policy per datatype: annotation and ndt7 key on [id -> id],
    ndt5 keys on [test_id -> test_id], each with an empty [OrderKeys]; and
    only these three datatypes have a policy. *)
Theorem policy_table :
  (forall client bucket experiment date project,
     let job dt := tracker.NewJob bucket experiment dt date in
     Rev2.NewQuerierWithClient client (job "annotation") project
       = (Some (Rev2.mkQueryer client project "date" (job "annotation") [("id", "id")] ""), None)
     /\ Rev2.NewQuerierWithClient client (job "ndt7") project
       = (Some (Rev2.mkQueryer client project "date" (job "ndt7") [("id", "id")] ""), None)
     /\ Rev2.NewQuerierWithClient client (job "ndt5") project
       = (Some (Rev2.mkQueryer client project "log_time" (job "ndt5")
                  [("test_id", "test_id")] ""), None))
  /\ (forall client job project q,
        Rev2.NewQuerierWithClient client job project = (Some q, None) ->
        In (tracker.Datatype job) supportedDatatypes
        /\ Rev2.OrderKeys q = ""
        /\ (Rev2.PartitionKeys q = [("id", "id")]
            \/ Rev2.PartitionKeys q = [("test_id", "test_id")])).
Proof.
  split.
  - intros; repeat split; reflexivity.
  - intros client job project q. unfold Rev2.NewQuerierWithClient, supportedDatatypes.
    destruct (String.eqb_spec (tracker.Datatype job) "annotation") as [E|_].
    { intros H; inversion H; subst; rewrite E; simpl; tauto. }
    destruct (String.eqb_spec (tracker.Datatype job) "ndt5") as [E|_].
    { intros H; inversion H; subst; rewrite E; simpl; tauto. }
    destruct (String.eqb_spec (tracker.Datatype job) "ndt7") as [E|_].
    { intros H; inversion H; subst; rewrite E; simpl; tauto. }
    discriminate.
Qed.

Lemma policy_table_witness :
  Rev2.NewQuerierWithClient (Some testClient) (testJob "ndt5") "mlab-sandbox"
    = (Some ndt5Queryer, None)
  /\ In (tracker.Datatype (testJob "ndt5")) supportedDatatypes
  /\ Rev2.OrderKeys ndt5Queryer = ""
  /\ (Rev2.PartitionKeys ndt5Queryer = [("id", "id")]
      \/ Rev2.PartitionKeys ndt5Queryer = [("test_id", "test_id")]).
Proof.
  split; [reflexivity|].
  apply (proj2 policy_table (Some testClient) (testJob "ndt5") "mlab-sandbox" ndt5Queryer).
  reflexivity.
Defined.

(** ** The table-name parser *)

(** C2.  [getTableParts] on the names of [Test_getTableParts]: the [$] form
    is a partition, the [_] form is not, both report prefix and date; a
    date of 7 or 9 digits, or one that is no calendar date, is an
    [InvalidPartitionName].  The parser is a function of the name alone. *)
Theorem getTableParts_examples :
  sanity.getTableParts "table$20160102" = inl (sanity.mkParts "table" true "20160102")
  /\ sanity.getTableParts "table_20160102" = inl (sanity.mkParts "table" false "20160102")
  /\ sanity.getTableParts "table$2016010" = inr InvalidPartitionName
  /\ sanity.getTableParts "table$201601022" = inr InvalidPartitionName
  /\ sanity.getTableParts "table$20162102" = inr InvalidPartitionName.
Proof.
  repeat split; vm_compute; reflexivity.
Qed.

(** ** The sanity check *)




(** ** Copy and cleanup *)

(** C7.  With a client at hand and outside dry-run mode, [CopyToRaw] sends
    one copy request: from the partition [tmp_<experiment>.<datatype>$YYYYMMDD]
    to the partition [raw_<experiment>.<datatype>$YYYYMMDD] of the same date,
    with the write disposition [WriteTruncate]; that copy is the only request
    of the call that changes data. *)
Theorem CopyToRaw_truncates_raw_partition
    (svc : bigquery.Service) (q : Rev2.queryer) (c : bigquery.Client) :
  Rev2.client q = Some c ->
  bigquery.NewClient svc (bigquery.clientProject c) = None ->
  let job := Rev2.Job q in
  let partition :=
    tracker.Datatype job ++ "$" ++ GoTime.Format (tracker.Date job) GoTime.Layout_20060102 in
  let src :=
    bigquery.mkTable (bigquery.clientProject c) ("tmp_" ++ tracker.Experiment job) partition in
  let dest :=
    bigquery.mkTable (bigquery.clientProject c) ("raw_" ++ tracker.Experiment job) partition in
  let copy := bigquery.mkCopy [src] dest bigquery.WriteTruncate in
  Rev2.CopyToRaw svc q false
    = ([bigquery.CallNewClient (bigquery.clientProject c);
        bigquery.CallMetadata src; bigquery.CallMetadata dest;
        bigquery.CallCopierRun copy],
       (Some (CopyJob (mk_xJob (fst (bigquery.CopierRun svc copy)))),
        snd (bigquery.CopierRun svc copy)))
  /\ filter bigquery.mutates (fst (Rev2.CopyToRaw svc q false)) = [bigquery.CallCopierRun copy].
Proof.
  intros Hc Hnew job partition src dest copy.
  assert (E : Rev2.CopyToRaw svc q false
    = ([bigquery.CallNewClient (bigquery.clientProject c);
        bigquery.CallMetadata src; bigquery.CallMetadata dest;
        bigquery.CallCopierRun copy],
       (Some (CopyJob (mk_xJob (fst (bigquery.CopierRun svc copy)))),
        snd (bigquery.CopierRun svc copy)))).
  { unfold Rev2.CopyToRaw. rewrite Hc, Hnew.
    fold job. fold partition. fold src. fold dest. fold copy.
    destruct (bigquery.CopierRun svc copy) as [j0 err]. reflexivity. }
  split; [exact E | rewrite E; reflexivity].
Qed.

Lemma CopyToRaw_truncates_raw_partition_witness :
  let src := bigquery.mkTable "mlab-sandbox" "tmp_exp" "ndt5$20190304" in
  let dest := bigquery.mkTable "mlab-sandbox" "raw_exp" "ndt5$20190304" in
  let copy := bigquery.mkCopy [src] dest bigquery.WriteTruncate in
  Rev2.CopyToRaw testService ndt5Queryer false
    = ([bigquery.CallNewClient "mlab-sandbox";
        bigquery.CallMetadata src; bigquery.CallMetadata dest;
        bigquery.CallCopierRun copy],
       (Some (CopyJob (mk_xJob (Some (bigquery.mkJob "copy-1")))), None))
  /\ filter bigquery.mutates (fst (Rev2.CopyToRaw testService ndt5Queryer false))
     = [bigquery.CallCopierRun copy].
Proof.
  exact (CopyToRaw_truncates_raw_partition testService ndt5Queryer testClient
           eq_refl eq_refl).
Defined.

(** C6.  The cleanup query of the [Queryer] revision is a [DELETE] from
    [tmp_<experiment>.<datatype>] with the single condition that the policy's
    date column equals the job's date; [DeleteTmp] of the [OpsHandler]
    revision sends, when it has a client, exactly one request, the deletion
    of the partition [tmp_<experiment>.<datatype>$YYYYMMDD], and none
    without a client; [Cleanup] of the [Queryer] revision sends the cleanup
    query and nothing else.  Values enter the query text through the template's
    HTML escaper, which leaves the names of BigQuery projects, datasets and
    tables as they are. *)
Theorem cleanup_deletes_the_job_partition :
  (forall q : Rev1.queryer,
     let P := HtmlTemplate.htmlEscaper (Rev1.Project q) in
     let E := HtmlTemplate.htmlEscaper (tracker.Experiment (Rev1.Job q)) in
     let D := HtmlTemplate.htmlEscaper (tracker.Datatype (Rev1.Job q)) in
     let day := GoTime.Format (tracker.Date (Rev1.Job q)) GoTime.Layout_2006_01_02 in
     Rev1.QueryFor q "cleanup" =
         LF ++
         "#standardSQL" ++ LF ++
         "# Delete all rows in a partition." ++ LF ++
         "DELETE" ++ LF ++
         "FROM `" ++ P ++ ".tmp_" ++ E ++ "." ++ D ++ "`" ++ LF ++
         "WHERE " ++ HtmlTemplate.htmlEscaper (Rev1.Date q) ++ " = " ++ DQ ++ day ++ DQ ++ LF)
  /\ (forall (svc : bigquery.Service) (q : Rev2.queryer),
        let job := Rev2.Job q in
        let partition :=
          tracker.Datatype job ++ "$"
            ++ GoTime.Format (tracker.Date job) GoTime.Layout_20060102 in
        Rev2.DeleteTmp svc q =
          match Rev2.client q with
          | None => ([], Some ErrNilBqClient)
          | Some c =>
              let tmp := bigquery.mkTable (bigquery.clientProject c)
                           ("tmp_" ++ tracker.Experiment job) partition in
              ([bigquery.CallTableDelete tmp], bigquery.TableDelete svc tmp)
          end)
  /\ (forall (svc : bigquery.Service) (q : Rev1.queryer) (dryRun : bool),
        Rev1.Cleanup svc q dryRun =
          match Rev1.client q with
          | None => ([], (None, Some ErrNilBqClient))
          | Some c =>
              if bigquery.QueryIsNil c (Rev1.QueryFor q "cleanup")
              then ([], (None, Some ErrNilQuery))
              else
                let qc := bigquery.mkQueryConfig (Rev1.QueryFor q "cleanup") dryRun in
                ([bigquery.CallQueryRun qc],
                 (option_map QueryJob (fst (bigquery.QueryRun svc qc)),
                  snd (bigquery.QueryRun svc qc)))
          end).
Proof.
  split; [|split].
  - intros q P E D day. rewrite Rev1_cleanup_text. reflexivity.
  - intros svc q job partition. unfold Rev2.DeleteTmp.
    destruct (Rev2.client q); reflexivity.
  - intros svc q dryRun. unfold Rev1.Cleanup, Rev1.Run.
    assert (Hne : Rev1.QueryFor q "cleanup" <> "").
    { rewrite Rev1_cleanup_text. unfold LF. discriminate. }
    destruct (Rev1.QueryFor q "cleanup") as [|ch rest] eqn:E; [congruence|].
    cbn [String.length Nat.eqb].
    destruct (Rev1.client q) as [c|]; [|reflexivity].
    destruct (bigquery.QueryIsNil c (String ch rest)); [reflexivity|].
    destruct (bigquery.QueryRun svc _) as [job err]. reflexivity.
Qed.

(** ** Rendering *)

Ltac string_norm :=
  unfold LF, TAB, DQ; rewrite ?append_assoc; rewrite ?append_nil_r; reflexivity.

(** C8, as stated, fails: the builder for an annotation job has one
    partition key, and [QueryFor] on a key that names no template (here
    ["restore"]) returns the empty string; and a policy without partition
    keys does not render to the empty string. *)
Lemma QueryFor_unregistered_key_is_empty :
  Rev1.NewQuerierWithClient (Some testClient) (testJob "annotation") "mlab-sandbox"
    = (Some annotationQueryer, None)
  /\ Rev1.Partition annotationQueryer = [("id", "id")]
  /\ Rev1.QueryFor annotationQueryer "restore" = ""
  /\ ~ (forall (q : Rev1.queryer) (key : string),
          Rev1.Partition q <> [] -> Rev1.QueryFor q key <> "")
  /\ Rev2.PartitionKeys noKeyQueryer = []
  /\ Rev2.DedupQuery noKeyQueryer <> "".
Proof.
  split; [reflexivity|]. split; [reflexivity|]. split; [reflexivity|].
  split; [|split; [reflexivity | vm_compute; discriminate]].
  intros H. apply (H annotationQueryer "restore"); [discriminate | reflexivity].
Qed.

(** C8, amended.  A template never renders to the empty string, whatever
    the policy, a policy without partition keys included: [DedupQuery] is
    never empty, [QueryFor] is empty exactly when its key names neither the
    dedup nor the cleanup template, and the empty-query guard of [Dedup]
    never fires, so that [Dedup] fails before sending its query only for a
    nil client or a nil query object. *)
Theorem rendering_is_never_empty :
  (forall q : Rev2.queryer, Rev2.DedupQuery q <> "")
  /\ (forall (q : Rev1.queryer) (key : string),
        Rev1.QueryFor q key = "" <-> (key <> "dedup" /\ key <> "cleanup"))
  /\ (forall (svc : bigquery.Service) (q : Rev2.queryer) (dryRun : bool),
        Rev2.Dedup svc q dryRun =
          match Rev2.client q with
          | None => ([], (None, Some ErrNilBqClient))
          | Some c =>
              if bigquery.QueryIsNil c (Rev2.DedupQuery q)
              then ([], (None, Some ErrNilQuery))
              else
                let qc := bigquery.mkQueryConfig (Rev2.DedupQuery q) dryRun in
                ([bigquery.CallQueryRun qc],
                 (option_map QueryJob (fst (bigquery.QueryRun svc qc)),
                  snd (bigquery.QueryRun svc qc)))
          end).
Proof.
  assert (Hne : forall q : Rev2.queryer, Rev2.DedupQuery q <> "").
  { intros q. rewrite Rev2_DedupQuery_text. unfold LF. discriminate. }
  split; [exact Hne|]. split.
  - intros q key. split.
    + intros H. split; intros ->.
      * rewrite Rev1_dedup_text in H. unfold LF in H. discriminate H.
      * rewrite Rev1_cleanup_text in H. unfold LF in H. discriminate H.
    + intros [Hd Hc]. unfold Rev1.QueryFor, Rev1.queryTemplates.
      apply String.eqb_neq in Hd. apply String.eqb_neq in Hc.
      rewrite Hd, Hc. reflexivity.
  - intros svc q dryRun. unfold Rev2.Dedup.
    specialize (Hne q). destruct (Rev2.DedupQuery q) as [|ch rest] eqn:E;
      [congruence|]. cbn [String.length Nat.eqb].
    destruct (Rev2.client q) as [c|]; [|reflexivity].
    destruct (bigquery.QueryIsNil c (String ch rest)); [reflexivity|].
    destruct (bigquery.QueryRun svc _) as [job err]. reflexivity.
Qed.

(** C4.  The rendered text depends on the project, the job and the policy
    alone, and on the partition-key map only as a map: two values that agree
    on these, the map enumerated in any two orders, render byte-identical
    queries (whatever their clients).  This holds for the dedup query of
    either revision and for the cleanup query. *)
Theorem rendering_is_deterministic :
  (forall q q' : Rev2.queryer,
     Rev2.Project q = Rev2.Project q' ->
     Rev2.Date q = Rev2.Date q' ->
     Rev2.Job q = Rev2.Job q' ->
     Rev2.OrderKeys q = Rev2.OrderKeys q' ->
     NoDup (map fst (Rev2.PartitionKeys q)) ->
     Permutation (Rev2.PartitionKeys q) (Rev2.PartitionKeys q') ->
     Rev2.DedupQuery q = Rev2.DedupQuery q')
  /\ (forall (q q' : Rev1.queryer) (key : string),
        Rev1.Project q = Rev1.Project q' ->
        Rev1.Date q = Rev1.Date q' ->
        Rev1.Job q = Rev1.Job q' ->
        Rev1.Order q = Rev1.Order q' ->
        NoDup (map fst (Rev1.Partition q)) ->
        Permutation (Rev1.Partition q) (Rev1.Partition q') ->
        Rev1.QueryFor q key = Rev1.QueryFor q' key).
Proof.
  split.
  - intros q q' HP HD HJ HO Hnd Hperm.
    rewrite !Rev2_DedupQuery_text. unfold keyColumns, keyMatches.
    rewrite (sortKeys_Permutation _ _ Hperm Hnd), HP, HD, HJ, HO. reflexivity.
  - intros q q' key HP HD HJ HO Hnd Hperm.
    destruct (String.eqb_spec key "dedup") as [->|Hd].
    { rewrite !Rev1_dedup_text. unfold keyColumns, keyMatches.
      rewrite (sortKeys_Permutation _ _ Hperm Hnd), HP, HD, HJ, HO. reflexivity. }
    destruct (String.eqb_spec key "cleanup") as [->|Hc].
    { rewrite !Rev1_cleanup_text. rewrite HP, HD, HJ. reflexivity. }
    unfold Rev1.QueryFor, Rev1.queryTemplates.
    apply String.eqb_neq in Hd. apply String.eqb_neq in Hc.
    rewrite Hd, Hc. reflexivity.
Qed.

Lemma rendering_is_deterministic_witness :
  NoDup (map fst twoKeys)
  /\ Permutation twoKeys twoKeysOtherOrder
  /\ Rev2.DedupQuery (twoKeyQueryer twoKeys) = Rev2.DedupQuery (twoKeyQueryer twoKeysOtherOrder).
Proof.
  assert (Hnd : NoDup (map fst twoKeys)).
  { repeat constructor; simpl; intuition discriminate. }
  assert (Hperm : Permutation twoKeys twoKeysOtherOrder) by apply perm_swap.
  split; [exact Hnd|]. split; [exact Hperm|].
  exact (proj1 rendering_is_deterministic (twoKeyQueryer twoKeys)
           (twoKeyQueryer twoKeysOtherOrder) eq_refl eq_refl eq_refl eq_refl Hnd Hperm).
Defined.

(** C10.  For every [queryer] value, the window of the rendered dedup query
    is [ROW_NUMBER() OVER (PARTITION BY <keys>, date ORDER BY <order>
    parser.Time DESC)]: the partition keys in key order, then the literal
    column [date], and the literal [parser.Time DESC] after the policy's
    order, none of which mentions the policy's date column.  The ndt5
    builder filters on [log_time], and its window still reads
    [PARTITION BY test_id, date]. *)
Theorem window_groups_by_literal_date :
  (forall q : Rev2.queryer,
     exists before after : string,
       Rev2.DedupQuery q =
         before ++
            "      ROW_NUMBER() OVER (" ++ LF ++
            "        PARTITION BY " ++ keyColumns (Rev2.PartitionKeys q) ++ "date" ++ LF ++
            "        ORDER BY " ++ HtmlTemplate.htmlEscaper (Rev2.OrderKeys q) ++ " parser.Time DESC" ++ LF ++
            "      ) row_number" ++ LF ++
         after)
  /\ (forall client bucket experiment date project,
        Rev2.NewQuerierWithClient client (tracker.NewJob bucket experiment "ndt5" date) project
          = (Some (Rev2.mkQueryer client project "log_time"
                     (tracker.NewJob bucket experiment "ndt5" date)
                     [("test_id", "test_id")] ""), None))
  /\ Rev2.Date ndt5Queryer = "log_time"
  /\ SQLText.windowPartitionColumns (Rev2.DedupQuery ndt5Queryer) = Some ["test_id"; "date"]
  /\ SQLText.windowOrder (Rev2.DedupQuery ndt5Queryer) = Some " parser.Time DESC".
Proof.
  split; [|split; [intros; reflexivity|repeat split; vm_compute; reflexivity]].
  intros q. rewrite Rev2_DedupQuery_text.
  exists (LF ++
            "#standardSQL" ++ LF ++
            "# Delete all duplicate rows based on key and prefered priority ordering." ++ LF ++
            "# This is resource intensive for tcpinfo - 20 slot hours for 12M rows with 250M snapshots," ++ LF ++
            "# roughly proportional to the memory footprint of the table partition." ++ LF ++
            "# The query is very cheap if there are no duplicates." ++ LF ++
            "DELETE" ++ LF ++
            "FROM `" ++ HtmlTemplate.htmlEscaper (Rev2.Project q) ++ ".tmp_" ++ HtmlTemplate.htmlEscaper (tracker.Experiment (Rev2.Job q)) ++ "." ++ HtmlTemplate.htmlEscaper (tracker.Datatype (Rev2.Job q)) ++ "` AS target" ++ LF ++
            "WHERE " ++ HtmlTemplate.htmlEscaper (Rev2.Date q) ++ " = " ++ DQ ++ GoTime.Format (tracker.Date (Rev2.Job q)) GoTime.Layout_2006_01_02 ++ DQ ++ LF ++
            "# This identifies all rows that don't match rows to preserve." ++ LF ++
            "AND NOT EXISTS (" ++ LF ++
            "  # This creates list of rows to preserve, based on key and priority." ++ LF ++
            "  WITH keep AS (" ++ LF ++
            "  SELECT * EXCEPT(row_number) FROM (" ++ LF ++
            "    SELECT" ++ LF ++
            "      " ++ keyColumns (Rev2.PartitionKeys q) ++ LF ++
            TAB ++ "  parser.Time," ++ LF).
  exists ("      FROM (" ++ LF ++
            "        SELECT * FROM " ++ "`" ++ HtmlTemplate.htmlEscaper (Rev2.Project q) ++ ".tmp_" ++ HtmlTemplate.htmlEscaper (tracker.Experiment (Rev2.Job q)) ++ "." ++ HtmlTemplate.htmlEscaper (tracker.Datatype (Rev2.Job q)) ++ "`" ++ LF ++
            "        WHERE " ++ HtmlTemplate.htmlEscaper (Rev2.Date q) ++ " = " ++ DQ ++ GoTime.Format (tracker.Date (Rev2.Job q)) GoTime.Layout_2006_01_02 ++ DQ ++ LF ++
            "      )" ++ LF ++
            "    )" ++ LF ++
            "    WHERE row_number = 1" ++ LF ++
            "  )" ++ LF ++
            "  SELECT * FROM keep" ++ LF ++
            "  # This matches against the keep table based on keys.  Sufficient select keys must be" ++ LF ++
            "  # used to distinguish the preferred row from the others." ++ LF ++
            "  WHERE" ++ LF ++
            "    " ++ keyMatches (Rev2.PartitionKeys q) ++ LF ++
            "    target.parser.Time = keep.Time" ++ LF ++
            ")").
  string_norm.
Qed.

(** C1, as stated, fails: the window of the rendered query does not
    partition over the declared partition keys alone.  For the ndt5 job the
    declared key is [test_id], and the window reads
    [PARTITION BY test_id, date], with rows filtered on [log_time]. *)
Lemma dedup_window_is_not_the_declared_keys :
  Rev2.NewQuerierWithClient (Some testClient) (testJob "ndt5") "mlab-sandbox"
    = (Some ndt5Queryer, None)
  /\ map snd (HtmlTemplate.sortKeys (Rev2.PartitionKeys ndt5Queryer)) = ["test_id"]
  /\ SQLText.windowPartitionColumns (Rev2.DedupQuery ndt5Queryer) = Some ["test_id"; "date"]
  /\ ~ (forall client job project q,
          In (tracker.Datatype job) supportedDatatypes ->
          Rev2.NewQuerierWithClient client job project = (Some q, None) ->
          SQLText.windowPartitionColumns (Rev2.DedupQuery q)
            = Some (map snd (HtmlTemplate.sortKeys (Rev2.PartitionKeys q)))).
Proof.
  split; [reflexivity|]. split; [reflexivity|].
  split; [vm_compute; reflexivity|].
  intros H.
  specialize (H (Some testClient) (testJob "ndt5") "mlab-sandbox" ndt5Queryer).
  assert (Hin : In (tracker.Datatype (testJob "ndt5")) supportedDatatypes)
    by (simpl; tauto).
  specialize (H Hin eq_refl). vm_compute in H. discriminate H.
Qed.

(** C1, amended.  For every supported datatype and job, the rendered dedup
    query is the [DELETE] below over [tmp_<experiment>.<datatype>]: restricted
    to the rows whose policy date column equals the job's date as
    [YYYY-MM-DD], it deletes the rows that match no rank-1 row on the
    partition key and on [parser.Time], where the rank is a [ROW_NUMBER]
    partitioned over the partition key followed by the literal column [date]
    and ordered by [parser.Time] descending (the policies have no order of
    their own).  Project and experiment pass through the HTML escaper. *)
Theorem dedup_query_of_supported_datatype
    (client : option bigquery.Client) (job : tracker.Job) (project : string) :
  In (tracker.Datatype job) supportedDatatypes ->
  exists (q : Rev2.queryer) (k : string),
    Rev2.NewQuerierWithClient client job project = (Some q, None)
    /\ Rev2.PartitionKeys q = [(k, k)]
    /\ Rev2.Date q = (if String.eqb (tracker.Datatype job) "ndt5" then "log_time" else "date")
    /\ let P := HtmlTemplate.htmlEscaper project in
       let E := HtmlTemplate.htmlEscaper (tracker.Experiment job) in
       let day := GoTime.Format (tracker.Date job) GoTime.Layout_2006_01_02 in
       Rev2.DedupQuery q =
         LF ++
         "#standardSQL" ++ LF ++
         "# Delete all duplicate rows based on key and prefered priority ordering." ++ LF ++
         "# This is resource intensive for tcpinfo - 20 slot hours for 12M rows with 250M snapshots," ++ LF ++
         "# roughly proportional to the memory footprint of the table partition." ++ LF ++
         "# The query is very cheap if there are no duplicates." ++ LF ++
         "DELETE" ++ LF ++
         "FROM `" ++ P ++ ".tmp_" ++ E ++ "." ++ tracker.Datatype job ++ "` AS target" ++ LF ++
         "WHERE " ++ Rev2.Date q ++ " = " ++ DQ ++ day ++ DQ ++ LF ++
         "# This identifies all rows that don't match rows to preserve." ++ LF ++
         "AND NOT EXISTS (" ++ LF ++
         "  # This creates list of rows to preserve, based on key and priority." ++ LF ++
         "  WITH keep AS (" ++ LF ++
         "  SELECT * EXCEPT(row_number) FROM (" ++ LF ++
         "    SELECT" ++ LF ++
         "      " ++ k ++ ", " ++ LF ++
         TAB ++ "  parser.Time," ++ LF ++
         "      ROW_NUMBER() OVER (" ++ LF ++
         "        PARTITION BY " ++ k ++ ", date" ++ LF ++
         "        ORDER BY  parser.Time DESC" ++ LF ++
         "      ) row_number" ++ LF ++
         "      FROM (" ++ LF ++
         "        SELECT * FROM " ++ "`" ++ P ++ ".tmp_" ++ E ++ "." ++ tracker.Datatype job ++ "`" ++ LF ++
         "        WHERE " ++ Rev2.Date q ++ " = " ++ DQ ++ day ++ DQ ++ LF ++
         "      )" ++ LF ++
         "    )" ++ LF ++
         "    WHERE row_number = 1" ++ LF ++
         "  )" ++ LF ++
         "  SELECT * FROM keep" ++ LF ++
         "  # This matches against the keep table based on keys.  Sufficient select keys must be" ++ LF ++
         "  # used to distinguish the preferred row from the others." ++ LF ++
         "  WHERE" ++ LF ++
         "    target." ++ k ++ " = keep." ++ k ++ " AND " ++ LF ++
         "    target.parser.Time = keep.Time" ++ LF ++
         ")".
Proof.
  intros Hin. destruct job as [bucket experiment datatype date].
  cbn [tracker.Datatype tracker.Experiment tracker.Date] in *.
  unfold supportedDatatypes in Hin.
  destruct Hin as [<-|[<-|[<-|[]]]].
  - eexists; exists "id". split; [reflexivity|]. split; [reflexivity|].
    split; [reflexivity|]. rewrite Rev2_DedupQuery_text. reflexivity.
  - eexists; exists "test_id". split; [reflexivity|]. split; [reflexivity|].
    split; [reflexivity|]. rewrite Rev2_DedupQuery_text. reflexivity.
  - eexists; exists "id". split; [reflexivity|]. split; [reflexivity|].
    split; [reflexivity|]. rewrite Rev2_DedupQuery_text. reflexivity.
Qed.

Lemma dedup_query_of_supported_datatype_witness :
  In (tracker.Datatype (testJob "ndt7")) supportedDatatypes
  /\ exists (q : Rev2.queryer) (k : string),
       Rev2.NewQuerierWithClient None (testJob "ndt7") "mlab-sandbox" = (Some q, None)
       /\ Rev2.PartitionKeys q = [(k, k)]
       /\ Rev2.Date q = "date".
Proof.
  assert (Hin : In (tracker.Datatype (testJob "ndt7")) supportedDatatypes)
    by (simpl; tauto).
  split; [exact Hin|].
  destruct (dedup_query_of_supported_datatype None (testJob "ndt7") "mlab-sandbox" Hin)
    as [q [k [Hq [Hk [Hd _]]]]].
  exists q, k. split; [exact Hq|]. split; [exact Hk | exact Hd].
Defined.

(** * Further properties *)

(** ** Formatting a date with a four-digit year *)

Ltac dlia := Z.div_mod_to_equations; lia.

Lemma decimal_step (fuel : nat) (u : Z) (acc : string) :
  GoTime.decimal (S fuel) u acc =
    if 10 <=? u
    then GoTime.decimal fuel (u / 10) (String (GoTime.digitChar (u mod 10)) acc)
    else String (GoTime.digitChar u) acc.
Proof.
  reflexivity.
Qed.

Lemma appendInt_four_digits (x : Z) :
  0 <= x <= 9999 ->
  GoTime.appendInt x 4 =
    String (GoTime.digitChar (x / 1000))
      (String (GoTime.digitChar (x / 100 mod 10))
         (String (GoTime.digitChar (x / 10 mod 10))
            (String (GoTime.digitChar (x mod 10)) EmptyString))).
Proof.
  intros H. unfold GoTime.appendInt.
  replace (x <? 0) with false by (symmetry; apply Z.ltb_ge; lia).
  rewrite Z.abs_eq by lia.
  destruct (Z.leb_spec 10 x) as [H1|H1].
  - rewrite decimal_step.
    replace (10 <=? x) with true by (symmetry; apply Z.leb_le; lia).
    destruct (Z.leb_spec 10 (x / 10)) as [H2|H2].
    + rewrite decimal_step.
      replace (10 <=? x / 10) with true by (symmetry; apply Z.leb_le; lia).
      destruct (Z.leb_spec 10 (x / 10 / 10)) as [H3|H3].
      * rewrite decimal_step.
        replace (10 <=? x / 10 / 10) with true by (symmetry; apply Z.leb_le; lia).
        rewrite decimal_step.
        replace (10 <=? x / 10 / 10 / 10) with false by (symmetry; apply Z.leb_gt; dlia).
        cbn [String.length Nat.sub GoTime.zeros append].
        replace (x / 10 / 10 / 10) with (x / 1000) by dlia.
        replace (x / 10 / 10 mod 10) with (x / 100 mod 10) by dlia.
        reflexivity.
      * rewrite decimal_step.
        replace (10 <=? x / 10 / 10) with false by (symmetry; apply Z.leb_gt; lia).
        cbn [String.length Nat.sub GoTime.zeros append].
        replace (x / 1000) with 0 by dlia.
        replace (x / 100 mod 10) with (x / 10 / 10) by dlia.
        reflexivity.
    + rewrite decimal_step.
      replace (10 <=? x / 10) with false by (symmetry; apply Z.leb_gt; lia).
      cbn [String.length Nat.sub GoTime.zeros append].
      replace (x / 1000) with 0 by dlia.
      replace (x / 100 mod 10) with 0 by dlia.
      replace (x / 10 mod 10) with (x / 10) by dlia.
      reflexivity.
  - rewrite decimal_step.
    replace (10 <=? x) with false by (symmetry; apply Z.leb_gt; lia).
    cbn [String.length Nat.sub GoTime.zeros append].
    replace (x / 1000) with 0 by dlia.
    replace (x / 100 mod 10) with 0 by dlia.
    replace (x / 10 mod 10) with 0 by dlia.
    replace (x mod 10) with x by dlia.
    reflexivity.
Qed.

Lemma appendInt_two_digits (x : Z) :
  0 <= x <= 99 ->
  GoTime.appendInt x 2 =
    String (GoTime.digitChar (x / 10)) (String (GoTime.digitChar (x mod 10)) EmptyString).
Proof.
  intros H. unfold GoTime.appendInt.
  replace (x <? 0) with false by (symmetry; apply Z.ltb_ge; lia).
  rewrite Z.abs_eq by lia.
  destruct (Z.leb_spec 10 x) as [H1|H1].
  - rewrite decimal_step.
    replace (10 <=? x) with true by (symmetry; apply Z.leb_le; lia).
    rewrite decimal_step.
    replace (10 <=? x / 10) with false by (symmetry; apply Z.leb_gt; dlia).
    reflexivity.
  - rewrite decimal_step.
    replace (10 <=? x) with false by (symmetry; apply Z.leb_gt; lia).
    cbn [String.length Nat.sub GoTime.zeros append].
    replace (x / 10) with 0 by dlia.
    replace (x mod 10) with x by dlia.
    reflexivity.
Qed.

Lemma nat_of_digitChar (d : Z) :
  0 <= d < 10 -> nat_of_ascii (GoTime.digitChar d) = (48 + Z.to_nat d)%nat.
Proof.
  intros H. unfold GoTime.digitChar. apply nat_ascii_embedding. lia.
Qed.

Lemma digitChar_inj (a b : Z) :
  0 <= a < 10 -> 0 <= b < 10 -> GoTime.digitChar a = GoTime.digitChar b -> a = b.
Proof.
  intros Ha Hb E. apply (f_equal nat_of_ascii) in E.
  rewrite !nat_of_digitChar in E by assumption. lia.
Qed.

Lemma digitsOnly_digitChar (d : Z) (s : string) :
  0 <= d < 10 -> digitsOnly (String (GoTime.digitChar d) s) = digitsOnly s.
Proof.
  intros H. cbn [digitsOnly]. rewrite nat_of_digitChar by assumption.
  replace (Nat.leb 48 (48 + Z.to_nat d)) with true by (symmetry; apply Nat.leb_le; lia).
  replace (Nat.leb (48 + Z.to_nat d) 57) with true by (symmetry; apply Nat.leb_le; lia).
  reflexivity.
Qed.

(** The dense layout on a date with a four-digit year: the eight digits. *)
Lemma Format_dense_digits (t : GoTime.Time) :
  fourDigitDate t ->
  GoTime.Format t GoTime.Layout_20060102 =
    String (GoTime.digitChar (GoTime.Year t / 1000))
   (String (GoTime.digitChar (GoTime.Year t / 100 mod 10))
   (String (GoTime.digitChar (GoTime.Year t / 10 mod 10))
   (String (GoTime.digitChar (GoTime.Year t mod 10))
   (String (GoTime.digitChar (GoTime.Month t / 10))
   (String (GoTime.digitChar (GoTime.Month t mod 10))
   (String (GoTime.digitChar (GoTime.Day t / 10))
   (String (GoTime.digitChar (GoTime.Day t mod 10)) EmptyString))))))).
Proof.
  intros [Hy [Hm Hd]]. unfold GoTime.Format.
  rewrite appendInt_four_digits by assumption.
  rewrite !appendInt_two_digits by lia. reflexivity.
Qed.

Lemma Format_dense_shape (t : GoTime.Time) :
  fourDigitDate t ->
  String.length (GoTime.Format t GoTime.Layout_20060102) = 8%nat
  /\ digitsOnly (GoTime.Format t GoTime.Layout_20060102) = true.
Proof.
  intros H. rewrite (Format_dense_digits t H). destruct H as [Hy [Hm Hd]].
  split; [reflexivity|].
  rewrite !digitsOnly_digitChar by dlia. reflexivity.
Qed.

Lemma Format_dense_inj (t t' : GoTime.Time) :
  fourDigitDate t -> fourDigitDate t' ->
  GoTime.Format t GoTime.Layout_20060102 = GoTime.Format t' GoTime.Layout_20060102 ->
  t = t'.
Proof.
  intros H H' E. rewrite (Format_dense_digits t H), (Format_dense_digits t' H') in E.
  destruct H as [Hy [Hm Hd]], H' as [Hy' [Hm' Hd']].
  injection E as E1 E2 E3 E4 E5 E6 E7 E8.
  apply digitChar_inj in E1; [|dlia|dlia].
  apply digitChar_inj in E2; [|dlia|dlia].
  apply digitChar_inj in E3; [|dlia|dlia].
  apply digitChar_inj in E4; [|dlia|dlia].
  apply digitChar_inj in E5; [|dlia|dlia].
  apply digitChar_inj in E6; [|dlia|dlia].
  apply digitChar_inj in E7; [|dlia|dlia].
  apply digitChar_inj in E8; [|dlia|dlia].
  destruct t as [y m d], t' as [y' m' d']. cbn [GoTime.Year GoTime.Month GoTime.Day] in *.
  assert (y = y') by dlia. assert (m = m') by dlia. assert (d = d') by dlia.
  subst. reflexivity.
Qed.

Lemma append_inv_head (a b c : string) : a ++ b = a ++ c -> b = c.
Proof.
  induction a as [|ch a IH]; simpl; intros E; [exact E|].
  injection E as E. exact (IH E).
Qed.

(** ** Partitions of different dates *)

(** X1.  For a job date with a four-digit year, the table [DeleteTmp]
    deletes is [tmp_<experiment>.<datatype>$] followed by exactly eight
    digits. *)
Theorem DeleteTmp_partition_is_eight_digits
    (svc : bigquery.Service) (q : Rev2.queryer) (c : bigquery.Client) :
  Rev2.client q = Some c ->
  fourDigitDate (tracker.Date (Rev2.Job q)) ->
  exists d : string,
    String.length d = 8%nat
    /\ digitsOnly d = true
    /\ fst (Rev2.DeleteTmp svc q)
       = [bigquery.CallTableDelete
            (bigquery.mkTable (bigquery.clientProject c)
               ("tmp_" ++ tracker.Experiment (Rev2.Job q))
               (tracker.Datatype (Rev2.Job q) ++ "$" ++ d))].
Proof.
  intros Hc Hd.
  exists (GoTime.Format (tracker.Date (Rev2.Job q)) GoTime.Layout_20060102).
  destruct (Format_dense_shape _ Hd) as [Hlen Hdig].
  split; [exact Hlen|]. split; [exact Hdig|].
  unfold Rev2.DeleteTmp. rewrite Hc. reflexivity.
Qed.

Lemma DeleteTmp_partition_is_eight_digits_witness :
  exists d : string,
    String.length d = 8%nat
    /\ digitsOnly d = true
    /\ fst (Rev2.DeleteTmp testService ndt5Queryer)
       = [bigquery.CallTableDelete
            (bigquery.mkTable "mlab-sandbox" "tmp_exp" ("ndt5" ++ "$" ++ d))].
Proof.
  apply (DeleteTmp_partition_is_eight_digits testService ndt5Queryer testClient eq_refl).
  unfold fourDigitDate. cbn. lia.
Defined.

(** X2.  Two jobs of the same datatype whose dates (with four-digit years)
    differ never have [DeleteTmp] delete the same table: equal requests force
    equal dates. *)
Theorem DeleteTmp_separates_dates
    (svc svc' : bigquery.Service) (q q' : Rev2.queryer) :
  Rev2.client q <> None ->
  tracker.Datatype (Rev2.Job q) = tracker.Datatype (Rev2.Job q') ->
  fourDigitDate (tracker.Date (Rev2.Job q)) ->
  fourDigitDate (tracker.Date (Rev2.Job q')) ->
  fst (Rev2.DeleteTmp svc q) = fst (Rev2.DeleteTmp svc' q') ->
  tracker.Date (Rev2.Job q) = tracker.Date (Rev2.Job q').
Proof.
  intros Hc Hdt Hd Hd' E. unfold Rev2.DeleteTmp in E.
  destruct (Rev2.client q) as [c|]; [|congruence].
  destruct (Rev2.client q') as [c'|]; [|discriminate E].
  cbn [fst] in E. injection E as _ _ E. rewrite Hdt in E.
  apply append_inv_head in E. injection E as E.
  apply (Format_dense_inj _ _ Hd Hd'). exact E.
Qed.

Lemma DeleteTmp_separates_dates_witness :
  fst (Rev2.DeleteTmp testService ndt5Queryer)
    <> fst (Rev2.DeleteTmp testService ndt5QueryerNextDay).
Proof.
  intros E.
  assert (H : tracker.Date (Rev2.Job ndt5Queryer) = tracker.Date (Rev2.Job ndt5QueryerNextDay)).
  { apply (DeleteTmp_separates_dates testService testService ndt5Queryer ndt5QueryerNextDay).
    - discriminate.
    - reflexivity.
    - unfold fourDigitDate; cbn; lia.
    - unfold fourDigitDate; cbn; lia.
    - exact E. }
  discriminate H.
Defined.

(** ** [CopyToRaw] *)

(** X3.  [CopyToRaw] of the [OpsHandler] revision, when it does not reach
    the copy: in dry-run mode it fails with "dryrun not implemented" before
    it looks at the client; without a client it fails with
    [ErrNilBqClient]; when no client can be made for the project, that
    error is returned.  Whenever it returns no job, it returns an error and
    has sent nothing that changes data. *)
Theorem CopyToRaw_failure_modes (svc : bigquery.Service) (q : Rev2.queryer) :
  Rev2.CopyToRaw svc q true = ([], (None, Some ErrDryRunNotImplemented))
  /\ (Rev2.client q = None ->
      Rev2.CopyToRaw svc q false = ([], (None, Some ErrNilBqClient)))
  /\ (forall c e,
        Rev2.client q = Some c ->
        bigquery.NewClient svc (bigquery.clientProject c) = Some e ->
        Rev2.CopyToRaw svc q false
          = ([bigquery.CallNewClient (bigquery.clientProject c)], (None, Some e)))
  /\ (forall dryRun,
        fst (snd (Rev2.CopyToRaw svc q dryRun)) = None ->
        snd (snd (Rev2.CopyToRaw svc q dryRun)) <> None
        /\ existsb bigquery.mutates (fst (Rev2.CopyToRaw svc q dryRun)) = false).
Proof.
  split; [reflexivity|]. split; [|split].
  - intros Hc. unfold Rev2.CopyToRaw. rewrite Hc. reflexivity.
  - intros c e Hc Hn. unfold Rev2.CopyToRaw. rewrite Hc, Hn. reflexivity.
  - intros dryRun. unfold Rev2.CopyToRaw.
    destruct dryRun; [intros _; split; [discriminate | reflexivity]|].
    destruct (Rev2.client q) as [c|]; [|intros _; split; [discriminate | reflexivity]].
    destruct (bigquery.NewClient svc (bigquery.clientProject c));
      [intros _; split; [discriminate | reflexivity]|].
    destruct (bigquery.CopierRun svc _) as [j0 err]. cbn. discriminate.
Qed.

Lemma CopyToRaw_failure_modes_witness :
  Rev2.CopyToRaw noClientService ndt5Queryer false
    = ([bigquery.CallNewClient "mlab-sandbox"], (None, Some (ErrService "no credentials")))
  /\ existsb bigquery.mutates (fst (Rev2.CopyToRaw noClientService ndt5Queryer false)) = false.
Proof.
  destruct (CopyToRaw_failure_modes noClientService ndt5Queryer) as [_ [_ [H3 H4]]].
  split.
  - exact (H3 testClient (ErrService "no credentials") eq_refl eq_refl).
  - apply (H4 false). reflexivity.
Defined.

(** X4.  Once [CopyToRaw] has sent the copy, the job it returns is never
    nil, also when the copy failed: the error of the copy comes with an
    [xJob] that wraps whatever job the copier returned, a nil one included. *)
Theorem CopyToRaw_job_is_not_nil_after_copy
    (svc : bigquery.Service) (q : Rev2.queryer) (c : bigquery.Client) :
  Rev2.client q = Some c ->
  bigquery.NewClient svc (bigquery.clientProject c) = None ->
  exists copy,
    In (bigquery.CallCopierRun copy) (fst (Rev2.CopyToRaw svc q false))
    /\ snd (Rev2.CopyToRaw svc q false)
       = (Some (CopyJob (mk_xJob (fst (bigquery.CopierRun svc copy)))),
          snd (bigquery.CopierRun svc copy)).
Proof.
  intros Hc Hn. unfold Rev2.CopyToRaw. rewrite Hc, Hn.
  match goal with
  | |- context [bigquery.CopierRun svc ?cfg] => exists cfg
  end.
  destruct (bigquery.CopierRun svc _) as [j0 err]. cbn. tauto.
Qed.

Lemma CopyToRaw_job_is_not_nil_after_copy_witness :
  snd (Rev2.CopyToRaw failingCopyService ndt5Queryer false)
    = (Some (CopyJob (mk_xJob None)), Some (ErrService "quota exceeded")).
Proof.
  destruct (CopyToRaw_job_is_not_nil_after_copy failingCopyService ndt5Queryer testClient
              eq_refl eq_refl) as [copy [_ H]].
  rewrite H. reflexivity.
Defined.

(** X5.  What [CopyToRaw] has copied is what [DeleteTmp] deletes: the one
    source table of the copy request is the table of the delete request, and
    the destination is another table. *)
Theorem DeleteTmp_deletes_the_copied_partition
    (svc : bigquery.Service) (q : Rev2.queryer) (copy : bigquery.CopyConfig) :
  In (bigquery.CallCopierRun copy) (fst (Rev2.CopyToRaw svc q false)) ->
  fst (Rev2.DeleteTmp svc q) = map bigquery.CallTableDelete (bigquery.Srcs copy)
  /\ ~ In (bigquery.Dst copy) (bigquery.Srcs copy)
  /\ bigquery.TableID (bigquery.Dst copy)
     = tracker.Datatype (Rev2.Job q) ++ "$"
         ++ GoTime.Format (tracker.Date (Rev2.Job q)) GoTime.Layout_20060102.
Proof.
  unfold Rev2.CopyToRaw, Rev2.DeleteTmp.
  destruct (Rev2.client q) as [c|]; [|intros []].
  destruct (bigquery.NewClient svc (bigquery.clientProject c)); [intros [E|[]]; discriminate E|].
  destruct (bigquery.CopierRun svc _) as [j0 err]. cbn [fst].
  intros [E|[E|[E|[E|[]]]]]; try discriminate E.
  injection E as <-. cbn. split; [reflexivity|]. split; [|reflexivity].
  intros [E|[]]. discriminate E.
Qed.

Lemma DeleteTmp_deletes_the_copied_partition_witness :
  fst (Rev2.DeleteTmp testService ndt5Queryer)
    = [bigquery.CallTableDelete (bigquery.mkTable "mlab-sandbox" "tmp_exp" "ndt5$20190304")].
Proof.
  assert (H : In (bigquery.CallCopierRun
                    (bigquery.mkCopy
                       [bigquery.mkTable "mlab-sandbox" "tmp_exp" "ndt5$20190304"]
                       (bigquery.mkTable "mlab-sandbox" "raw_exp" "ndt5$20190304")
                       bigquery.WriteTruncate))
                 (fst (Rev2.CopyToRaw testService ndt5Queryer false))).
  { cbn. tauto. }
  exact (proj1 (DeleteTmp_deletes_the_copied_partition testService ndt5Queryer _ H)).
Defined.

(** X6.  In the revision between the two, [CopyToRaw] does not read its
    [dryRun] argument: with a client it sends, in dry-run mode too, the copy
    of the whole table [tmp_<experiment>.<datatype>] over the whole table
    [raw_<experiment>.<datatype>], with [WriteTruncate]; no partition is
    named. *)
Theorem RevMid_CopyToRaw_copies_whole_table
    (svc : bigquery.Service) (q : Rev2.queryer) (c : bigquery.Client) (dryRun : bool) :
  Rev2.client q = Some c ->
  let job := Rev2.Job q in
  let copy :=
    bigquery.mkCopy
      [bigquery.mkTable (bigquery.clientProject c) ("tmp_" ++ tracker.Experiment job)
         (tracker.Datatype job)]
      (bigquery.mkTable (bigquery.clientProject c) ("raw_" ++ tracker.Experiment job)
         (tracker.Datatype job))
      bigquery.WriteTruncate in
  RevMid.CopyToRaw svc q dryRun = ([bigquery.CallCopierRun copy], bigquery.CopierRun svc copy)
  /\ existsb bigquery.mutates (fst (RevMid.CopyToRaw svc q true)) = true.
Proof.
  intros Hc job copy. unfold RevMid.CopyToRaw. rewrite Hc. split; reflexivity.
Qed.

Lemma RevMid_CopyToRaw_copies_whole_table_witness :
  RevMid.CopyToRaw testService ndt5Queryer true
    = ([bigquery.CallCopierRun
          (bigquery.mkCopy [bigquery.mkTable "mlab-sandbox" "tmp_exp" "ndt5"]
             (bigquery.mkTable "mlab-sandbox" "raw_exp" "ndt5") bigquery.WriteTruncate)],
       (Some (bigquery.mkJob "copy-1"), None)).
Proof.
  exact (proj1 (RevMid_CopyToRaw_copies_whole_table testService ndt5Queryer testClient true
                  eq_refl)).
Defined.

(** ** [Run] of the [Queryer] revision *)

Lemma Rev1_QueryFor_registered (q : Rev1.queryer) (key : string) :
  Rev1.QueryFor q key <> "" -> key = "dedup" \/ key = "cleanup".
Proof.
  unfold Rev1.QueryFor, Rev1.queryTemplates.
  destruct (String.eqb_spec key "dedup") as [->|_]; [tauto|].
  destruct (String.eqb_spec key "cleanup") as [->|_]; [tauto|].
  congruence.
Qed.

(** X7.  [Run] on a key that names no template fails with [ErrNilQuery]
    and sends nothing, whether or not there is a client: the empty query
    is found before the nil client. *)
Theorem Rev1_Run_unregistered_key
    (svc : bigquery.Service) (q : Rev1.queryer) (key : string) (dryRun : bool) :
  key <> "dedup" -> key <> "cleanup" ->
  Rev1.Run svc q key dryRun = ([], (None, Some ErrNilQuery)).
Proof.
  intros Hd Hc. unfold Rev1.Run, Rev1.QueryFor, Rev1.queryTemplates.
  apply String.eqb_neq in Hd. apply String.eqb_neq in Hc.
  rewrite Hd, Hc. reflexivity.
Qed.

Lemma Rev1_Run_unregistered_key_witness :
  Rev1.Run testService annotationQueryer "restore" false = ([], (None, Some ErrNilQuery)).
Proof.
  apply (Rev1_Run_unregistered_key testService annotationQueryer "restore" false);
    discriminate.
Defined.

(** X8.  Whatever [Run] sends is one query, for a registered key and with a
    client: its text is the rendering of the key's template and its dry-run
    flag is the caller's, so that in dry-run mode [Run], [Dedup] and
    [Cleanup] send nothing that changes data. *)
Theorem Rev1_Run_requests
    (svc : bigquery.Service) (q : Rev1.queryer) (key : string) (dryRun : bool)
    (call : bigquery.Call) :
  In call (fst (Rev1.Run svc q key dryRun)) ->
  (key = "dedup" \/ key = "cleanup")
  /\ Rev1.client q <> None
  /\ fst (Rev1.Run svc q key dryRun)
     = [bigquery.CallQueryRun (bigquery.mkQueryConfig (Rev1.QueryFor q key) dryRun)]
  /\ bigquery.mutates call = negb dryRun.
Proof.
  unfold Rev1.Run.
  destruct (Rev1.QueryFor q key) as [|ch rest] eqn:E; [intros []|].
  cbn [String.length Nat.eqb].
  destruct (Rev1.client q) as [c|]; [|intros []].
  destruct (bigquery.QueryIsNil c (String ch rest)); [intros []|].
  destruct (bigquery.QueryRun svc _) as [job err]. cbn [fst].
  intros [<-|[]]. split.
  - apply (Rev1_QueryFor_registered q key). rewrite E. discriminate.
  - split; [discriminate|]. split; reflexivity.
Qed.

Lemma Rev1_Run_requests_witness :
  fst (Rev1.Run testService annotationQueryer "cleanup" true)
    = [bigquery.CallQueryRun
         (bigquery.mkQueryConfig (Rev1.QueryFor annotationQueryer "cleanup") true)]
  /\ existsb bigquery.mutates (fst (Rev1.Cleanup testService annotationQueryer true)) = false.
Proof.
  assert (H : In (bigquery.CallQueryRun
                    (bigquery.mkQueryConfig (Rev1.QueryFor annotationQueryer "cleanup") true))
                 (fst (Rev1.Run testService annotationQueryer "cleanup" true))).
  { vm_compute. tauto. }
  destruct (Rev1_Run_requests _ _ _ _ _ H) as [_ [_ [Hreq _]]].
  split; [exact Hreq|]. unfold Rev1.Cleanup. rewrite Hreq. reflexivity.
Defined.

(** ** From one revision to the next *)

(** X9.  Every job the [Queryer] revision builds for is built for by the
    [OpsHandler] revision too, with the same date column and partition keys
    and byte for byte the same dedup query; ndt5 jobs, which the [Queryer]
    revision rejects, are the ones the [OpsHandler] revision adds. *)
Theorem revisions_agree_on_dedup_query :
  (forall client job project q1,
     Rev1.NewQuerierWithClient client job project = (Some q1, None) ->
     exists q2,
       Rev2.NewQuerierWithClient client job project = (Some q2, None)
       /\ Rev2.Date q2 = Rev1.Date q1
       /\ Rev2.PartitionKeys q2 = Rev1.Partition q1
       /\ Rev2.DedupQuery q2 = Rev1.QueryFor q1 "dedup")
  /\ (forall client job project,
        tracker.Datatype job = "ndt5" ->
        Rev1.NewQuerierWithClient client job project = (None, Some ErrDatatypeNotSupported)
        /\ exists q2, Rev2.NewQuerierWithClient client job project = (Some q2, None)).
Proof.
  split.
  - intros client [bucket experiment datatype date] project q1.
    unfold Rev1.NewQuerierWithClient. cbn [tracker.Datatype].
    destruct (String.eqb_spec datatype "annotation") as [->|_].
    { intros H; injection H as <-. eexists. split; [reflexivity|].
      split; [reflexivity|]. split; [reflexivity|].
      rewrite Rev2_DedupQuery_text, Rev1_dedup_text. reflexivity. }
    destruct (String.eqb_spec datatype "ndt7") as [->|_].
    { intros H; injection H as <-. eexists. split; [reflexivity|].
      split; [reflexivity|]. split; [reflexivity|].
      rewrite Rev2_DedupQuery_text, Rev1_dedup_text. reflexivity. }
    discriminate.
  - intros client [bucket experiment datatype date] project. cbn [tracker.Datatype].
    intros ->. split; [reflexivity|]. eexists. reflexivity.
Qed.

Lemma revisions_agree_on_dedup_query_witness :
  exists q2,
    Rev2.NewQuerierWithClient (Some testClient) (testJob "annotation") "mlab-sandbox"
      = (Some q2, None)
    /\ Rev2.Date q2 = Rev1.Date annotationQueryer
    /\ Rev2.PartitionKeys q2 = Rev1.Partition annotationQueryer
    /\ Rev2.DedupQuery q2 = Rev1.QueryFor annotationQueryer "dedup".
Proof.
  exact (proj1 revisions_agree_on_dedup_query (Some testClient) (testJob "annotation")
           "mlab-sandbox" annotationQueryer eq_refl).
Defined.

(** ** [NewQuerier] *)

Lemma Rev2_DedupQuery_nonempty (q : Rev2.queryer) : Rev2.DedupQuery q <> "".
Proof.
  rewrite Rev2_DedupQuery_text. unfold LF. discriminate.
Qed.

Lemma Rev2_builder_fields client job project q :
  Rev2.NewQuerierWithClient client job project = (Some q, None) ->
  In (tracker.Datatype job) supportedDatatypes
  /\ Rev2.client q = client /\ Rev2.Project q = project /\ Rev2.Job q = job.
Proof.
  unfold Rev2.NewQuerierWithClient, supportedDatatypes.
  destruct (String.eqb_spec (tracker.Datatype job) "annotation") as [E|_].
  { intros H; injection H as <-. rewrite E. cbn. tauto. }
  destruct (String.eqb_spec (tracker.Datatype job) "ndt5") as [E|_].
  { intros H; injection H as <-. rewrite E. cbn. tauto. }
  destruct (String.eqb_spec (tracker.Datatype job) "ndt7") as [E|_].
  { intros H; injection H as <-. rewrite E. cbn. tauto. }
  discriminate.
Qed.

(** X10.  [NewQuerier] makes the client before it looks at the datatype:
    when no client can be made, that error is returned whatever the
    datatype, and for an unsupported datatype the client has been asked for
    all the same. *)
Theorem NewQuerier_makes_client_first
    (svc : bigquery.Service) (job : tracker.Job) (project : string) :
  fst (Rev2More.NewQuerier svc job project) = [bigquery.CallNewClient project]
  /\ (forall e, bigquery.NewClient svc project = Some e ->
        snd (Rev2More.NewQuerier svc job project) = (None, Some e))
  /\ (bigquery.NewClient svc project = None ->
      ~ In (tracker.Datatype job) supportedDatatypes ->
      snd (Rev2More.NewQuerier svc job project) = (None, Some ErrDatatypeNotSupported)).
Proof.
  unfold Rev2More.NewQuerier.
  destruct (bigquery.NewClient svc project) as [e0|].
  - split; [reflexivity|]. split; [|discriminate].
    intros e H; injection H as <-. reflexivity.
  - split; [reflexivity|]. split; [discriminate|].
    intros _ Hout. cbn [snd]. unfold Rev2.NewQuerierWithClient, supportedDatatypes in *.
    destruct (String.eqb_spec (tracker.Datatype job) "annotation") as [E|_];
      [exfalso; apply Hout; rewrite E; simpl; tauto|].
    destruct (String.eqb_spec (tracker.Datatype job) "ndt5") as [E|_];
      [exfalso; apply Hout; rewrite E; simpl; tauto|].
    destruct (String.eqb_spec (tracker.Datatype job) "ndt7") as [E|_];
      [exfalso; apply Hout; rewrite E; simpl; tauto|].
    reflexivity.
Qed.

Lemma NewQuerier_makes_client_first_witness :
  Rev2More.NewQuerier noClientService (testJob "tcpinfo") "mlab-sandbox"
    = ([bigquery.CallNewClient "mlab-sandbox"], (None, Some (ErrService "no credentials"))).
Proof.
  destruct (NewQuerier_makes_client_first noClientService (testJob "tcpinfo") "mlab-sandbox")
    as [H1 [H2 _]].
  specialize (H2 (ErrService "no credentials") eq_refl).
  destruct (Rev2More.NewQuerier noClientService (testJob "tcpinfo") "mlab-sandbox") as [calls r].
  cbn [fst snd] in *. subst. reflexivity.
Defined.

(** X11.  On a builder that [NewQuerier] returned, [Dedup] always sends its
    query, with the caller's dry-run flag, and returns what the service
    answers: neither the nil-client nor the nil-query error can occur.
    [DeleteTmp] always sends its delete, in the project of the builder. *)
Theorem NewQuerier_builder_runs
    (svc : bigquery.Service) (job : tracker.Job) (project : string)
    (calls : list bigquery.Call) (q : Rev2.queryer) :
  Rev2More.NewQuerier svc job project = (calls, (Some q, None)) ->
  In (tracker.Datatype job) supportedDatatypes
  /\ (forall dryRun,
        let qc := bigquery.mkQueryConfig (Rev2.DedupQuery q) dryRun in
        Rev2.Dedup svc q dryRun
          = ([bigquery.CallQueryRun qc],
             (option_map QueryJob (fst (bigquery.QueryRun svc qc)),
              snd (bigquery.QueryRun svc qc))))
  /\ Rev2.DeleteTmp svc q
     = (let tmp :=
          bigquery.mkTable project ("tmp_" ++ tracker.Experiment job)
            (tracker.Datatype job ++ "$"
               ++ GoTime.Format (tracker.Date job) GoTime.Layout_20060102) in
        ([bigquery.CallTableDelete tmp], bigquery.TableDelete svc tmp)).
Proof.
  unfold Rev2More.NewQuerier.
  destruct (bigquery.NewClient svc project); [discriminate|].
  intros H. injection H as _ H.
  destruct (Rev2_builder_fields _ _ _ _ H) as [Hin [Hc [Hp Hj]]].
  split; [exact Hin|]. split.
  - intros dryRun. cbv zeta. unfold Rev2.Dedup.
    pose proof (Rev2_DedupQuery_nonempty q) as Hne.
    destruct (Rev2.DedupQuery q) as [|ch rest] eqn:E; [congruence|].
    cbn [String.length Nat.eqb]. rewrite Hc. cbn [bigquery.QueryIsNil Rev2More.AdaptClient].
    destruct (bigquery.QueryRun svc _) as [j0 err]. reflexivity.
  - unfold Rev2.DeleteTmp. rewrite Hc, Hj. reflexivity.
Qed.

Lemma NewQuerier_builder_runs_witness :
  In (tracker.Datatype (testJob "ndt5")) supportedDatatypes
  /\ Rev2.DeleteTmp testService ndt5Queryer
     = ([bigquery.CallTableDelete (bigquery.mkTable "mlab-sandbox" "tmp_exp" "ndt5$20190304")],
        None).
Proof.
  destruct (NewQuerier_builder_runs testService (testJob "ndt5") "mlab-sandbox"
              [bigquery.CallNewClient "mlab-sandbox"] ndt5Queryer eq_refl)
    as [H1 [_ H3]].
  split; [exact H1 | exact H3].
Defined.

(** ** The table of the query and the table of the operations *)

(** X12.  On a builder that [NewQuerier] returned, for a project and an
    experiment free of the bytes the template's escaper replaces, the dedup
    query deletes from the table whose project, dataset and name (before the
    partition decorator) are those of the table [DeleteTmp] deletes. *)
Theorem query_and_DeleteTmp_name_one_table
    (svc : bigquery.Service) (job : tracker.Job) (project : string)
    (calls : list bigquery.Call) (q : Rev2.queryer) :
  Rev2More.NewQuerier svc job project = (calls, (Some q, None)) ->
  plain project = true ->
  plain (tracker.Experiment job) = true ->
  exists (tmp : bigquery.TableRef) (head rest : string),
    fst (Rev2.DeleteTmp svc q) = [bigquery.CallTableDelete tmp]
    /\ bigquery.TableID tmp
       = tracker.Datatype job ++ "$"
           ++ GoTime.Format (tracker.Date job) GoTime.Layout_20060102
    /\ Rev2.DedupQuery q =
         head ++
         "DELETE" ++ LF ++
         "FROM `" ++ bigquery.ProjectID tmp ++ "." ++ bigquery.DatasetID tmp ++ "."
           ++ tracker.Datatype job ++ "` AS target" ++ LF ++
         rest.
Proof.
  unfold Rev2More.NewQuerier.
  destruct (bigquery.NewClient svc project); [discriminate|].
  intros H Hp He. injection H as _ H.
  destruct (Rev2_builder_fields _ _ _ _ H) as [Hin [Hc [HP HJ]]].
  assert (Hd : HtmlTemplate.htmlEscaper (tracker.Datatype job) = tracker.Datatype job).
  { unfold supportedDatatypes in Hin.
    destruct Hin as [<-|[<-|[<-|[]]]]; reflexivity. }
  exists (bigquery.mkTable project ("tmp_" ++ tracker.Experiment job)
            (tracker.Datatype job ++ "$"
               ++ GoTime.Format (tracker.Date job) GoTime.Layout_20060102)).
  exists (LF ++
      "#standardSQL" ++ LF ++
      "# Delete all duplicate rows based on key and prefered priority ordering." ++ LF ++
      "# This is resource intensive for tcpinfo - 20 slot hours for 12M rows with 250M snapshots," ++ LF ++
      "# roughly proportional to the memory footprint of the table partition." ++ LF ++
      "# The query is very cheap if there are no duplicates." ++ LF).
  exists ("WHERE " ++ HtmlTemplate.htmlEscaper (Rev2.Date q) ++ " = " ++ DQ ++ GoTime.Format (tracker.Date (Rev2.Job q)) GoTime.Layout_2006_01_02 ++ DQ ++ LF ++
      "# This identifies all rows that don't match rows to preserve." ++ LF ++
      "AND NOT EXISTS (" ++ LF ++
      "  # This creates list of rows to preserve, based on key and priority." ++ LF ++
      "  WITH keep AS (" ++ LF ++
      "  SELECT * EXCEPT(row_number) FROM (" ++ LF ++
      "    SELECT" ++ LF ++
      "      " ++ keyColumns (Rev2.PartitionKeys q) ++ LF ++
      TAB ++ "  parser.Time," ++ LF ++
      "      ROW_NUMBER() OVER (" ++ LF ++
      "        PARTITION BY " ++ keyColumns (Rev2.PartitionKeys q) ++ "date" ++ LF ++
      "        ORDER BY " ++ HtmlTemplate.htmlEscaper (Rev2.OrderKeys q) ++ " parser.Time DESC" ++ LF ++
      "      ) row_number" ++ LF ++
      "      FROM (" ++ LF ++
      "        SELECT * FROM " ++ "`" ++ HtmlTemplate.htmlEscaper (Rev2.Project q) ++ ".tmp_" ++ HtmlTemplate.htmlEscaper (tracker.Experiment (Rev2.Job q)) ++ "." ++ HtmlTemplate.htmlEscaper (tracker.Datatype (Rev2.Job q)) ++ "`" ++ LF ++
      "        WHERE " ++ HtmlTemplate.htmlEscaper (Rev2.Date q) ++ " = " ++ DQ ++ GoTime.Format (tracker.Date (Rev2.Job q)) GoTime.Layout_2006_01_02 ++ DQ ++ LF ++
      "      )" ++ LF ++
      "    )" ++ LF ++
      "    WHERE row_number = 1" ++ LF ++
      "  )" ++ LF ++
      "  SELECT * FROM keep" ++ LF ++
      "  # This matches against the keep table based on keys.  Sufficient select keys must be" ++ LF ++
      "  # used to distinguish the preferred row from the others." ++ LF ++
      "  WHERE" ++ LF ++
      "    " ++ keyMatches (Rev2.PartitionKeys q) ++ LF ++
      "    target.parser.Time = keep.Time" ++ LF ++
      ")").
  split; [unfold Rev2.DeleteTmp; rewrite Hc, HJ; reflexivity|].
  split; [reflexivity|].
  rewrite Rev2_DedupQuery_text. rewrite HP, HJ, Hd.
  rewrite !(htmlEscaper_plain _ Hp), !(htmlEscaper_plain _ He).
  cbn [bigquery.ProjectID bigquery.DatasetID]. string_norm.
Qed.

Lemma query_and_DeleteTmp_name_one_table_witness :
  exists (tmp : bigquery.TableRef) (head rest : string),
    fst (Rev2.DeleteTmp testService ndt5Queryer) = [bigquery.CallTableDelete tmp]
    /\ bigquery.TableID tmp = "ndt5$20190304"
    /\ Rev2.DedupQuery ndt5Queryer =
         head ++
         "DELETE" ++ LF ++
         "FROM `" ++ bigquery.ProjectID tmp ++ "." ++ bigquery.DatasetID tmp ++ "."
           ++ "ndt5" ++ "` AS target" ++ LF ++
         rest.
Proof.
  exact (query_and_DeleteTmp_name_one_table testService (testJob "ndt5") "mlab-sandbox"
           [bigquery.CallNewClient "mlab-sandbox"] ndt5Queryer eq_refl eq_refl eq_refl).
Defined.

(** ** Every partition key takes part *)

Lemma In_insertByKey (x e : string * string) (l : HtmlTemplate.GoMap) :
  In x (HtmlTemplate.insertByKey e l) <-> x = e \/ In x l.
Proof.
  induction l as [|e' l IH]; simpl.
  - intuition.
  - destruct (String.leb (fst e) (fst e')); simpl; rewrite ?IH; intuition.
Qed.

Lemma In_sortKeys (x : string * string) (m : HtmlTemplate.GoMap) :
  In x (HtmlTemplate.sortKeys m) <-> In x m.
Proof.
  induction m as [|e m IH]; simpl; [tauto|].
  rewrite In_insertByKey, IH. intuition.
Qed.

Lemma cat_app (l l' : list string) :
  HtmlTemplate.cat (l ++ l') = HtmlTemplate.cat l ++ HtmlTemplate.cat l'.
Proof.
  induction l as [|s l IH]; simpl; [reflexivity|].
  rewrite IH, append_assoc. reflexivity.
Qed.

Lemma cat_map_In (f : string * string -> string) (x : string * string)
    (l : list (string * string)) :
  In x l ->
  exists a b : string, HtmlTemplate.cat (map f l) = a ++ f x ++ b.
Proof.
  intros Hin. apply in_split in Hin as [l1 [l2 ->]].
  exists (HtmlTemplate.cat (map f l1)), (HtmlTemplate.cat (map f l2)).
  rewrite map_app, cat_app. reflexivity.
Qed.

(** X13.  No declared partition key is left out of the dedup query: for
    every entry [k -> v] of the partition-key map, the window's
    [PARTITION BY] list has the column [v], and the final [WHERE] has the
    condition [target.v = keep.k]. *)
Theorem every_partition_key_takes_part (q : Rev2.queryer) (k v : string) :
  In (k, v) (Rev2.PartitionKeys q) ->
  (exists before cols cols' after : string,
     Rev2.DedupQuery q =
       before ++ "        PARTITION BY " ++ cols ++ HtmlTemplate.htmlEscaper v ++ ", "
         ++ cols' ++ "date" ++ LF ++ after)
  /\ (exists before after : string,
        Rev2.DedupQuery q =
          before ++ "target." ++ HtmlTemplate.htmlEscaper v ++ " = keep."
            ++ HtmlTemplate.htmlEscaper k ++ " AND " ++ after).
Proof.
  intros Hin. apply In_sortKeys in Hin.
  split.
  - destruct (cat_map_In (fun kv => HtmlTemplate.htmlEscaper (snd kv) ++ ", ") _ _ Hin)
      as [a [b Hab]].
    fold (keyColumns (Rev2.PartitionKeys q)) in Hab. cbn [snd] in Hab.
    exists (LF ++
      "#standardSQL" ++ LF ++
      "# Delete all duplicate rows based on key and prefered priority ordering." ++ LF ++
      "# This is resource intensive for tcpinfo - 20 slot hours for 12M rows with 250M snapshots," ++ LF ++
      "# roughly proportional to the memory footprint of the table partition." ++ LF ++
      "# The query is very cheap if there are no duplicates." ++ LF ++
      "DELETE" ++ LF ++
      "FROM " ++ "`" ++ HtmlTemplate.htmlEscaper (Rev2.Project q) ++ ".tmp_" ++ HtmlTemplate.htmlEscaper (tracker.Experiment (Rev2.Job q)) ++ "." ++ HtmlTemplate.htmlEscaper (tracker.Datatype (Rev2.Job q)) ++ "`" ++ " AS target" ++ LF ++
      "WHERE " ++ HtmlTemplate.htmlEscaper (Rev2.Date q) ++ " = " ++ DQ ++ GoTime.Format (tracker.Date (Rev2.Job q)) GoTime.Layout_2006_01_02 ++ DQ ++ LF ++
      "# This identifies all rows that don't match rows to preserve." ++ LF ++
      "AND NOT EXISTS (" ++ LF ++
      "  # This creates list of rows to preserve, based on key and priority." ++ LF ++
      "  WITH keep AS (" ++ LF ++
      "  SELECT * EXCEPT(row_number) FROM (" ++ LF ++
      "    SELECT" ++ LF ++
      "      " ++ keyColumns (Rev2.PartitionKeys q) ++ LF ++
      TAB ++ "  parser.Time," ++ LF ++
      "      ROW_NUMBER() OVER (" ++ LF).
    exists a, b.
    exists ("        ORDER BY " ++ HtmlTemplate.htmlEscaper (Rev2.OrderKeys q) ++ " parser.Time DESC" ++ LF ++
      "      ) row_number" ++ LF ++
      "      FROM (" ++ LF ++
      "        SELECT * FROM " ++ "`" ++ HtmlTemplate.htmlEscaper (Rev2.Project q) ++ ".tmp_" ++ HtmlTemplate.htmlEscaper (tracker.Experiment (Rev2.Job q)) ++ "." ++ HtmlTemplate.htmlEscaper (tracker.Datatype (Rev2.Job q)) ++ "`" ++ LF ++
      "        WHERE " ++ HtmlTemplate.htmlEscaper (Rev2.Date q) ++ " = " ++ DQ ++ GoTime.Format (tracker.Date (Rev2.Job q)) GoTime.Layout_2006_01_02 ++ DQ ++ LF ++
      "      )" ++ LF ++
      "    )" ++ LF ++
      "    WHERE row_number = 1" ++ LF ++
      "  )" ++ LF ++
      "  SELECT * FROM keep" ++ LF ++
      "  # This matches against the keep table based on keys.  Sufficient select keys must be" ++ LF ++
      "  # used to distinguish the preferred row from the others." ++ LF ++
      "  WHERE" ++ LF ++
      "    " ++ keyMatches (Rev2.PartitionKeys q) ++ LF ++
      "    target.parser.Time = keep.Time" ++ LF ++
      ")").
    rewrite Rev2_DedupQuery_text. rewrite !Hab. string_norm.
  - destruct (cat_map_In
                (fun kv => "target." ++ HtmlTemplate.htmlEscaper (snd kv) ++ " = keep."
                             ++ HtmlTemplate.htmlEscaper (fst kv) ++ " AND ") _ _ Hin)
      as [a [b Hab]].
    fold (keyMatches (Rev2.PartitionKeys q)) in Hab. cbn [fst snd] in Hab.
    exists (LF ++
      "#standardSQL" ++ LF ++
      "# Delete all duplicate rows based on key and prefered priority ordering." ++ LF ++
      "# This is resource intensive for tcpinfo - 20 slot hours for 12M rows with 250M snapshots," ++ LF ++
      "# roughly proportional to the memory footprint of the table partition." ++ LF ++
      "# The query is very cheap if there are no duplicates." ++ LF ++
      "DELETE" ++ LF ++
      "FROM " ++ "`" ++ HtmlTemplate.htmlEscaper (Rev2.Project q) ++ ".tmp_" ++ HtmlTemplate.htmlEscaper (tracker.Experiment (Rev2.Job q)) ++ "." ++ HtmlTemplate.htmlEscaper (tracker.Datatype (Rev2.Job q)) ++ "`" ++ " AS target" ++ LF ++
      "WHERE " ++ HtmlTemplate.htmlEscaper (Rev2.Date q) ++ " = " ++ DQ ++ GoTime.Format (tracker.Date (Rev2.Job q)) GoTime.Layout_2006_01_02 ++ DQ ++ LF ++
      "# This identifies all rows that don't match rows to preserve." ++ LF ++
      "AND NOT EXISTS (" ++ LF ++
      "  # This creates list of rows to preserve, based on key and priority." ++ LF ++
      "  WITH keep AS (" ++ LF ++
      "  SELECT * EXCEPT(row_number) FROM (" ++ LF ++
      "    SELECT" ++ LF ++
      "      " ++ keyColumns (Rev2.PartitionKeys q) ++ LF ++
      TAB ++ "  parser.Time," ++ LF ++
      "      ROW_NUMBER() OVER (" ++ LF ++
      "        PARTITION BY " ++ keyColumns (Rev2.PartitionKeys q) ++ "date" ++ LF ++
      "        ORDER BY " ++ HtmlTemplate.htmlEscaper (Rev2.OrderKeys q) ++ " parser.Time DESC" ++ LF ++
      "      ) row_number" ++ LF ++
      "      FROM (" ++ LF ++
      "        SELECT * FROM " ++ "`" ++ HtmlTemplate.htmlEscaper (Rev2.Project q) ++ ".tmp_" ++ HtmlTemplate.htmlEscaper (tracker.Experiment (Rev2.Job q)) ++ "." ++ HtmlTemplate.htmlEscaper (tracker.Datatype (Rev2.Job q)) ++ "`" ++ LF ++
      "        WHERE " ++ HtmlTemplate.htmlEscaper (Rev2.Date q) ++ " = " ++ DQ ++ GoTime.Format (tracker.Date (Rev2.Job q)) GoTime.Layout_2006_01_02 ++ DQ ++ LF ++
      "      )" ++ LF ++
      "    )" ++ LF ++
      "    WHERE row_number = 1" ++ LF ++
      "  )" ++ LF ++
      "  SELECT * FROM keep" ++ LF ++
      "  # This matches against the keep table based on keys.  Sufficient select keys must be" ++ LF ++
      "  # used to distinguish the preferred row from the others." ++ LF ++
      "  WHERE" ++ LF ++
      "    " ++ a).
    exists (b ++ LF ++
      "    target.parser.Time = keep.Time" ++ LF ++
      ")").
    rewrite Rev2_DedupQuery_text. rewrite !Hab. string_norm.
Qed.

Lemma every_partition_key_takes_part_witness :
  exists before after : string,
    Rev2.DedupQuery (twoKeyQueryer twoKeys) =
      before ++ "target." ++ HtmlTemplate.htmlEscaper "FinalSnapshot.Timestamp" ++ " = keep."
        ++ HtmlTemplate.htmlEscaper "Timestamp" ++ " AND " ++ after.
Proof.
  apply (every_partition_key_takes_part (twoKeyQueryer twoKeys)
           "Timestamp" "FinalSnapshot.Timestamp").
  cbn. tauto.
Defined.

(** ** The day of the query and the day of the partition *)

Lemma Format_iso_of_dense (t : GoTime.Time) :
  fourDigitDate t ->
  GoTime.Format t GoTime.Layout_2006_01_02 =
    let d := GoTime.Format t GoTime.Layout_20060102 in
    substring 0 4 d ++ "-" ++ substring 4 2 d ++ "-" ++ substring 6 2 d.
Proof.
  intros H. cbv zeta. rewrite (Format_dense_digits t H).
  destruct H as [Hy [Hm Hd]]. unfold GoTime.Format.
  rewrite appendInt_four_digits by assumption.
  rewrite !appendInt_two_digits by lia. reflexivity.
Qed.

(** X14.  For a job date with a four-digit year, the dedup query filters
    on the day of the partition that [DeleteTmp] deletes (and [CopyToRaw]
    copies): the date literal of its [WHERE] is the partition's eight digits
    [d], written [dddd-dd-dd]. *)
Theorem query_filters_the_day_of_the_partition
    (svc : bigquery.Service) (q : Rev2.queryer) (c : bigquery.Client) :
  Rev2.client q = Some c ->
  fourDigitDate (tracker.Date (Rev2.Job q)) ->
  exists d head rest : string,
    fst (Rev2.DeleteTmp svc q)
      = [bigquery.CallTableDelete
           (bigquery.mkTable (bigquery.clientProject c)
              ("tmp_" ++ tracker.Experiment (Rev2.Job q))
              (tracker.Datatype (Rev2.Job q) ++ "$" ++ d))]
    /\ String.length d = 8%nat
    /\ Rev2.DedupQuery q =
         head ++
         "WHERE " ++ HtmlTemplate.htmlEscaper (Rev2.Date q) ++ " = "
           ++ DQ ++ substring 0 4 d ++ "-" ++ substring 4 2 d ++ "-" ++ substring 6 2 d
           ++ DQ ++ LF ++
         rest.
Proof.
  intros Hc Hd.
  exists (GoTime.Format (tracker.Date (Rev2.Job q)) GoTime.Layout_20060102).
  exists (LF ++
      "#standardSQL" ++ LF ++
      "# Delete all duplicate rows based on key and prefered priority ordering." ++ LF ++
      "# This is resource intensive for tcpinfo - 20 slot hours for 12M rows with 250M snapshots," ++ LF ++
      "# roughly proportional to the memory footprint of the table partition." ++ LF ++
      "# The query is very cheap if there are no duplicates." ++ LF ++
      "DELETE" ++ LF ++
      "FROM " ++ "`" ++ HtmlTemplate.htmlEscaper (Rev2.Project q) ++ ".tmp_" ++ HtmlTemplate.htmlEscaper (tracker.Experiment (Rev2.Job q)) ++ "." ++ HtmlTemplate.htmlEscaper (tracker.Datatype (Rev2.Job q)) ++ "`" ++ " AS target" ++ LF).
  exists ("# This identifies all rows that don't match rows to preserve." ++ LF ++
      "AND NOT EXISTS (" ++ LF ++
      "  # This creates list of rows to preserve, based on key and priority." ++ LF ++
      "  WITH keep AS (" ++ LF ++
      "  SELECT * EXCEPT(row_number) FROM (" ++ LF ++
      "    SELECT" ++ LF ++
      "      " ++ keyColumns (Rev2.PartitionKeys q) ++ LF ++
      TAB ++ "  parser.Time," ++ LF ++
      "      ROW_NUMBER() OVER (" ++ LF ++
      "        PARTITION BY " ++ keyColumns (Rev2.PartitionKeys q) ++ "date" ++ LF ++
      "        ORDER BY " ++ HtmlTemplate.htmlEscaper (Rev2.OrderKeys q) ++ " parser.Time DESC" ++ LF ++
      "      ) row_number" ++ LF ++
      "      FROM (" ++ LF ++
      "        SELECT * FROM " ++ "`" ++ HtmlTemplate.htmlEscaper (Rev2.Project q) ++ ".tmp_" ++ HtmlTemplate.htmlEscaper (tracker.Experiment (Rev2.Job q)) ++ "." ++ HtmlTemplate.htmlEscaper (tracker.Datatype (Rev2.Job q)) ++ "`" ++ LF ++
      "        WHERE " ++ HtmlTemplate.htmlEscaper (Rev2.Date q) ++ " = " ++ DQ ++ GoTime.Format (tracker.Date (Rev2.Job q)) GoTime.Layout_2006_01_02 ++ DQ ++ LF ++
      "      )" ++ LF ++
      "    )" ++ LF ++
      "    WHERE row_number = 1" ++ LF ++
      "  )" ++ LF ++
      "  SELECT * FROM keep" ++ LF ++
      "  # This matches against the keep table based on keys.  Sufficient select keys must be" ++ LF ++
      "  # used to distinguish the preferred row from the others." ++ LF ++
      "  WHERE" ++ LF ++
      "    " ++ keyMatches (Rev2.PartitionKeys q) ++ LF ++
      "    target.parser.Time = keep.Time" ++ LF ++
      ")").
  split; [unfold Rev2.DeleteTmp; rewrite Hc; reflexivity|].
  split; [exact (proj1 (Format_dense_shape _ Hd))|].
  rewrite Rev2_DedupQuery_text.
  pose proof (Format_iso_of_dense _ Hd) as Hiso. cbv zeta in Hiso.
  rewrite !Hiso. string_norm.
Qed.

Lemma query_filters_the_day_of_the_partition_witness :
  exists d head rest : string,
    fst (Rev2.DeleteTmp testService ndt5Queryer)
      = [bigquery.CallTableDelete (bigquery.mkTable "mlab-sandbox" "tmp_exp" ("ndt5" ++ "$" ++ d))]
    /\ String.length d = 8%nat
    /\ Rev2.DedupQuery ndt5Queryer =
         head ++
         "WHERE " ++ HtmlTemplate.htmlEscaper "log_time" ++ " = "
           ++ DQ ++ substring 0 4 d ++ "-" ++ substring 4 2 d ++ "-" ++ substring 6 2 d
           ++ DQ ++ LF ++
         rest.
Proof.
  apply (query_filters_the_day_of_the_partition testService ndt5Queryer testClient eq_refl).
  unfold fourDigitDate. cbn. lia.
Defined.
